(** * VISPR front end: the project index page and its backend gateways

    A shallow embedding of the compiled front-end bundle ([main.js]): the
    entity classes of [src/services], the gateway services that fetch them,
    and the [IndexPage] component that owns the cascading selection, the
    derived plot data and the selection side panel.

    Conventions of the embedding.
    - A JavaScript value that may be [undefined] or [null] is an [option];
      [None] is the absent value.  Reading an array out of range is [None].
    - A property with a setter is a function [set_<property>] on the page
      state; a plain field write is [with_<field>].
    - An [async] method is split at its [await]s into the segments of the
      compiled generator ([case 0], [case 1], ...): [m_0] runs up to the
      first [await], [m_1] resumes with the awaited value, and so on.  The
      event loop runs one segment at a time, so a segment is atomic.
    - Every HTTP GET is appended to the page's [issued] history, in the
      order in which the requests are made.
    - The ids and indices of the REST API are integers; where one is made
      into a text, the text is that of the JavaScript number that holds
      it. *)

From stdpp Require Import base option list strings gmap pretty.
From Stdlib Require QArith.QArith_base.

(** ** Environment ([src/environments/environment.ts]) *)

Module environment.
Definition production : bool := false.
Definition apiBaseUrl : string := "http://localhost:8080".
End environment.

(** ** JavaScript helpers *)

(** Truthiness of a string-valued expression: [undefined], [null] and the
    empty string are falsy. *)
Definition truthy_string (v : option string) : bool :=
  match v with
  | Some s => negb (bool_decide (s = ""))
  | None => false
  end.

(** Truthiness of an object-valued expression. *)
Definition truthy_object {A : Type} (v : option A) : bool :=
  match v with
  | Some _ => true
  | None => false
  end.

(** [baseUrl + url] guarded by [if (baseUrl)]: a falsy (empty) base leaves
    the URL as received. *)
Definition prefixUrl (baseUrl url : string) : string :=
  if truthy_string (Some baseUrl) then baseUrl +:+ url else url.

(** Coordinates are IEEE doubles in the bundle.  The page only copies them
    from the embedding into the plot series, so any carrier serves. *)
Definition Coord : Type := QArith_base.Q.

(** A label is a single string or a list of strings. *)
Inductive Labels :=
| Label (s : string)
| LabelList (l : list string).

(** ** Entities ([src/services/**]) *)

Module Embedding.
Record t := {
  cluster : Z;
  attributionIndex : Z;
  value : list Coord
}.
End Embedding.

Module Analysis.
Record t := {
  categoryName : string;
  humanReadableCategoryName : string;
  clusteringName : string;
  embeddingName : string;
  embedding : list Embedding.t;
  eigenValues : list Coord;
  baseEmbeddingName : option string;
  baseEmbeddingAxesIndices : option (list Z)
}.
End Analysis.

Module AnalysisCategory.
Record t := {
  name : string;
  humanReadableName : string
}.
End AnalysisCategory.

Module AnalysisMethod.
Record t := {
  name : string;
  categories : list AnalysisCategory.t;
  clusterings : list string;
  embeddings : list string
}.
End AnalysisMethod.

Module Project.
Record t := {
  id : Z;
  name : string;
  model : string;
  dataset : string;
  analysisMethods : list AnalysisMethod.t
}.
End Project.

(** The constructors of the five classes above copy the fields of the JSON
    payload one by one; payload and entity have the same shape and are
    identified.  The three classes below rewrite URLs, so their payloads
    ([json.t]) are kept apart from the constructed entities ([t]). *)

Module Sample.
Module json.
Record t := {
  index : Z;
  labels : Labels;
  width : Z;
  height : Z;
  url : string
}.
End json.

Record t := {
  index : Z;
  labels : Labels;
  width : Z;
  height : Z;
  url : string
}.

(** [new Sample(sample, baseUrl)] *)
Definition new (sample : json.t) (baseUrl : string) : t :=
  {| index := json.index sample;
     labels := json.labels sample;
     width := json.width sample;
     height := json.height sample;
     url := prefixUrl baseUrl (json.url sample) |}.
End Sample.

Module ColorMap.
Module json.
Record t := {
  name : string;
  humanReadableName : string;
  url : string
}.
End json.

Record t := {
  name : string;
  humanReadableName : string;
  url : string
}.

(** [new ColorMap(colorMap, baseUrl)] *)
Definition new (colorMap : json.t) (baseUrl : string) : t :=
  {| name := json.name colorMap;
     humanReadableName := json.humanReadableName colorMap;
     url := prefixUrl baseUrl (json.url colorMap) |}.
End ColorMap.

Module Attribution.
Module json.
Record t := {
  index : Z;
  labels : Labels;
  prediction : string;
  width : Z;
  height : Z;
  url : string;
  urls : gmap string string
}.
End json.

Record t := {
  index : Z;
  labels : Labels;
  prediction : string;
  width : Z;
  height : Z;
  url : string;
  urls : gmap string string;
  sample : option Sample.t
}.

(** The [for (colorMap in this.urls)] loop: every own key of the map gets
    the base URL in front of its value. *)
Definition prefixUrls (baseUrl : string) (urls : gmap string string)
  : gmap string string :=
  if truthy_string (Some baseUrl) then (λ u, baseUrl +:+ u) <$> urls else urls.

(** [new Attribution(attribution, baseUrl)].  The [sample] field is not
    assigned by the constructor. *)
Definition new (attribution : json.t) (baseUrl : string) : t :=
  {| index := json.index attribution;
     labels := json.labels attribution;
     prediction := json.prediction attribution;
     width := json.width attribution;
     height := json.height attribution;
     url := prefixUrl baseUrl (json.url attribution);
     urls := prefixUrls baseUrl (json.urls attribution);
     sample := None |}.

(** [this.urls = attribution.urls] aliases the payload's map, and the loop
    writes through the alias: this is the payload object as the
    constructor leaves it. *)
Definition payload_after_new (attribution : json.t) (baseUrl : string) : json.t :=
  {| json.index := json.index attribution;
     json.labels := json.labels attribution;
     json.prediction := json.prediction attribution;
     json.width := json.width attribution;
     json.height := json.height attribution;
     json.url := json.url attribution;
     json.urls := prefixUrls baseUrl (json.urls attribution) |}.

(** [attribution.sample = s] *)
Definition with_sample (s : option Sample.t) (a : t) : t :=
  {| index := index a; labels := labels a; prediction := prediction a;
     width := width a; height := height a; url := url a; urls := urls a;
     sample := s |}.
End Attribution.


(** ** The plot series handed to the rendering engine *)

Module Series.
Record t := {
  name : string;
  x : list (option Coord);
  y : list (option Coord);
  type : string;
  mode : string;
  marker_size : Z;
  hoverinfo : string;
  attributionIndices : list Z
}.
End Series.

(** A point of a hover or selection event: the series it belongs to and its
    position in that series. *)
Module DataPoint.
Record t := {
  data : Series.t;
  pointIndex : nat
}.
End DataPoint.

Module EventInfo.
Record t := {
  points : list DataPoint.t
}.
End EventInfo.

(** ** Numbers

    The ids and indices of the REST API are integers.  The page holds them
    as JavaScript numbers, and where it builds a text from one it gets the
    text of [Number::toString]: the decimal numeral up to 2^53, and beyond
    that the shortest digits that still round to the same number, followed
    by zeros or, from 1e21 on, by an exponent. *)
Module JsNum.

(** A number of the page where the API speaks of an integer: that integer,
    or [NaN], which is what [parseInt] makes of a text that does not start
    with a numeral. *)
Inductive t :=
| NaN
| Int (z : Z).

(** The number an integer [a ≥ 0] is held as: [a] itself below 2^53, else
    the nearest integer with a significand of 53 bits, the even one of two
    that are equally near; [None] is [Infinity]. *)
Definition roundToDouble (a : Z) : option Z :=
  if (a <? 2 ^ 53)%Z then Some a
  else
    let e := (Z.log2 a - 52)%Z in
    let q := (a `div` 2 ^ e)%Z in
    let r := (a `mod` 2 ^ e)%Z in
    let half := (2 ^ (e - 1))%Z in
    let q :=
      if (r <? half)%Z then q
      else if (half <? r)%Z then (q + 1)%Z
      else if Z.even q then q else (q + 1)%Z in
    let x := (q * 2 ^ e)%Z in
    if (x <? 2 ^ 1024)%Z then Some x else None.

Definition decimalLength (x : Z) : Z := Z.of_nat (String.length (pretty x)).

(** The pairs [(s, m)] of [k] digits [s] and an exponent [m ≥ 0] for which
    [s * 10^m] is held as [x], where [x] has [n] digits: the two multiples
    of [10^m] around [x], and the power of ten above [x]. *)
Definition candidates (x n : Z) (k : Z) : list (Z * Z) :=
  let m := (n - k)%Z in
  let below := (x `div` 10 ^ m)%Z in
  filter (λ c : Z * Z,
            (0 ≤ c.2)%Z ∧ (10 ^ (k - 1) ≤ c.1 < 10 ^ k)%Z ∧
            roundToDouble (c.1 * 10 ^ c.2) = Some x)
         ([(below, m); (below + 1, m)%Z] ++ (if (k =? 1)%Z then [(1, n)%Z] else [])).

(** Of two candidates the one nearer to [x], and of two equally near ones
    the one with even digits. *)
Definition closer (x : Z) (c c' : Z * Z) : Z * Z :=
  let d := Z.abs (c.1 * 10 ^ c.2 - x) in
  let d' := Z.abs (c'.1 * 10 ^ c'.2 - x) in
  if (d <? d')%Z then c
  else if (d' <? d)%Z then c'
  else if Z.even c.1 then c else c'.

Definition closest (x : Z) (cs : list (Z * Z)) : option (Z * Z) :=
  match cs with
  | [] => None
  | c :: cs => Some (foldl (closer x) c cs)
  end.

(** The digits of [x]: the candidate with the fewest digits, tried in the
    order [ks]. *)
Fixpoint shortest (x n : Z) (ks : list Z) : Z * Z :=
  match ks with
  | [] => (x, 0%Z)
  | k :: ks =>
      match closest x (candidates x n k) with
      | Some c => c
      | None => shortest x n ks
      end
  end.

Fixpoint zeros (n : nat) : string :=
  match n with
  | O => ""
  | S n => "0" +:+ zeros n
  end.

(** The text of an integer number [x > 0] with digits [s] and exponent [m]:
    the digits and [m] zeros when that has at most 21 places, else the first
    digit, the others after a point, and the exponent. *)
Definition toStringPositive (x : Z) : string :=
  let '(s, m) := shortest x (decimalLength x) (Z.of_nat <$> seq 1 17) in
  let digits := pretty s in
  let n := (Z.of_nat (String.length digits) + m)%Z in
  if (n <=? 21)%Z then digits +:+ zeros (Z.to_nat m)
  else
    match digits with
    | String first EmptyString => digits +:+ "e+" +:+ pretty (n - 1)%Z
    | String first rest => String first ("." +:+ rest) +:+ "e+" +:+ pretty (n - 1)%Z
    | EmptyString => digits
    end.

Definition toStringGeneral (z : Z) : string :=
  match roundToDouble (Z.abs z) with
  | None => (if (z <? 0)%Z then "-" else "") +:+ "Infinity"
  | Some x => (if (z <? 0)%Z then "-" else "") +:+ toStringPositive x
  end.

(** [Number::toString].  Below 2^53 every integer is a number of its own,
    and its shortest digits are its numeral. *)
Definition toString (n : t) : string :=
  match n with
  | NaN => "NaN"
  | Int z => if (Z.abs z <? 2 ^ 53)%Z then pretty z else toStringGeneral z
  end.

End JsNum.

(** The text of an integer number. *)
Definition js_integer (z : Z) : string := JsNum.toString (JsNum.Int z).

(** ** HTTP requests and the backend *)

(** The GET requests of the five gateways, by their key. *)
Inductive Request :=
| GetProjects
| GetProjectById (id : option JsNum.t)
| GetAnalysis (projectId : Z) (analysisMethod category clustering embedding : string)
| GetAttribution (projectId : Z) (index : option Z)
| GetSample (projectId : Z) (index : Z)
| GetColorMaps.

(** A value interpolated into a URL where a number is expected: the text
    of the number, and ["undefined"] when there is none. *)
Definition js_value (n : option JsNum.t) : string :=
  match n with
  | Some n => JsNum.toString n
  | None => "undefined"
  end.

Definition js_number (n : option Z) : string := js_value (JsNum.Int <$> n).

(** The URL each gateway builds by string concatenation. *)
Definition request_url (r : Request) : string :=
  match r with
  | GetProjects =>
      environment.apiBaseUrl +:+ "/api/projects"
  | GetProjectById id =>
      environment.apiBaseUrl +:+ "/api/projects/" +:+ js_value id
  | GetAnalysis projectId analysisMethod category clustering embedding =>
      environment.apiBaseUrl +:+ "/api/projects/" +:+ js_integer projectId
        +:+ "/analyses/" +:+ analysisMethod +:+ "?category=" +:+ category
        +:+ "&clustering=" +:+ clustering +:+ "&embedding=" +:+ embedding
  | GetAttribution projectId index =>
      environment.apiBaseUrl +:+ "/api/projects/" +:+ js_integer projectId
        +:+ "/attributions/" +:+ js_number index
  | GetSample projectId index =>
      environment.apiBaseUrl +:+ "/api/projects/" +:+ js_integer projectId
        +:+ "/dataset/" +:+ js_integer index
  | GetColorMaps =>
      environment.apiBaseUrl +:+ "/api/color-maps"
  end.

(** The REST backend, one function per endpoint: the JSON payload it
    answers with, or [None] when the request fails (the promise of the
    gateway call is then rejected). *)
Record Backend := {
  serveProject : option JsNum.t → option Project.t;
  serveAnalysis : Z → string → string → string → string → option Analysis.t;
  serveAttribution : Z → option Z → option Attribution.json.t;
  serveSample : Z → Z → option Sample.json.t;
  serveColorMaps : option (list ColorMap.json.t)
}.

(** ** Gateways ([*.service.ts])

    For each [getAsync]: the request it sends and the value its promise
    resolves to, which is the payload mapped through the entity constructor
    with [environment.apiBaseUrl]. *)

Module AnalysesService.
Definition request (projectId : Z) (analysisMethod category clustering embedding : string)
  : Request :=
  GetAnalysis projectId analysisMethod category clustering embedding.

Definition getAsync (B : Backend) (projectId : Z)
    (analysisMethod category clustering embedding : string) : option Analysis.t :=
  serveAnalysis B projectId analysisMethod category clustering embedding.
End AnalysesService.

Module AttributionsService.
Definition request (call : Z * option Z) : Request :=
  GetAttribution call.1 call.2.

Definition getAsync (B : Backend) (call : Z * option Z) : option Attribution.t :=
  (λ attribution, Attribution.new attribution environment.apiBaseUrl)
    <$> serveAttribution B call.1 call.2.
End AttributionsService.

Module DatasetService.
Definition request (call : Z * Z) : Request :=
  GetSample call.1 call.2.

Definition getAsync (B : Backend) (call : Z * Z) : option Sample.t :=
  (λ sample, Sample.new sample environment.apiBaseUrl)
    <$> serveSample B call.1 call.2.
End DatasetService.

Module ColorMapsService.
Definition request : Request := GetColorMaps.

Definition getAsync (B : Backend) : option (list ColorMap.t) :=
  (λ colorMaps : list ColorMap.json.t,
     (λ colorMap, ColorMap.new colorMap environment.apiBaseUrl) <$> colorMaps)
    <$> serveColorMaps B.
End ColorMapsService.

Module ProjectsService.
Definition request (id : option JsNum.t) : Request := GetProjectById id.

Definition getByIdAsync (B : Backend) (id : option JsNum.t) : option Project.t :=
  serveProject B id.
End ProjectsService.

(** [Promise.all(batch.map(call))]: resolves to the results in the order of
    the batch, and is rejected as soon as one call is. *)
Definition Promise_all {K A : Type} (call : K → option A) (batch : list K)
  : option (list A) :=
  mapM call batch.

(** ** The page state ([index.page.ts])

    The fields of [IndexPage], and [issued], the history of the requests
    made through the gateways the page holds. *)

Record IndexPage := {
  id : option JsNum.t;
  project : option Project.t;
  _horizontalAxisDimensionIndex : nat;
  _verticalAxisDimensionIndex : nat;
  _selectedAnalysisMethod : option AnalysisMethod.t;
  _selectedCategory : option AnalysisCategory.t;
  _selectedClustering : option string;
  _selectedEmbedding : option string;
  _analysis : option Analysis.t;
  graphData : option (list Series.t);
  isLoading : bool;
  selectedAttributions : option (list Attribution.t);
  colorMaps : option (list ColorMap.t);
  selectedColorMap : option ColorMap.t;
  isHovering : bool;
  datasetSampleHoverPreview : option Sample.t;
  isLoadingSelection : bool;
  issued : list Request
}.

Definition with_id (v : option JsNum.t) (p : IndexPage) : IndexPage :=
  {| id := v; project := project p;
     _horizontalAxisDimensionIndex := _horizontalAxisDimensionIndex p;
     _verticalAxisDimensionIndex := _verticalAxisDimensionIndex p;
     _selectedAnalysisMethod := _selectedAnalysisMethod p;
     _selectedCategory := _selectedCategory p;
     _selectedClustering := _selectedClustering p;
     _selectedEmbedding := _selectedEmbedding p; _analysis := _analysis p;
     graphData := graphData p; isLoading := isLoading p;
     selectedAttributions := selectedAttributions p; colorMaps := colorMaps p;
     selectedColorMap := selectedColorMap p; isHovering := isHovering p;
     datasetSampleHoverPreview := datasetSampleHoverPreview p;
     isLoadingSelection := isLoadingSelection p; issued := issued p |}.

Definition with_project (v : option Project.t) (p : IndexPage) : IndexPage :=
  {| id := id p; project := v;
     _horizontalAxisDimensionIndex := _horizontalAxisDimensionIndex p;
     _verticalAxisDimensionIndex := _verticalAxisDimensionIndex p;
     _selectedAnalysisMethod := _selectedAnalysisMethod p;
     _selectedCategory := _selectedCategory p;
     _selectedClustering := _selectedClustering p;
     _selectedEmbedding := _selectedEmbedding p; _analysis := _analysis p;
     graphData := graphData p; isLoading := isLoading p;
     selectedAttributions := selectedAttributions p; colorMaps := colorMaps p;
     selectedColorMap := selectedColorMap p; isHovering := isHovering p;
     datasetSampleHoverPreview := datasetSampleHoverPreview p;
     isLoadingSelection := isLoadingSelection p; issued := issued p |}.

Definition with_horizontalAxisDimensionIndex (v : nat) (p : IndexPage) : IndexPage :=
  {| id := id p; project := project p; _horizontalAxisDimensionIndex := v;
     _verticalAxisDimensionIndex := _verticalAxisDimensionIndex p;
     _selectedAnalysisMethod := _selectedAnalysisMethod p;
     _selectedCategory := _selectedCategory p;
     _selectedClustering := _selectedClustering p;
     _selectedEmbedding := _selectedEmbedding p; _analysis := _analysis p;
     graphData := graphData p; isLoading := isLoading p;
     selectedAttributions := selectedAttributions p; colorMaps := colorMaps p;
     selectedColorMap := selectedColorMap p; isHovering := isHovering p;
     datasetSampleHoverPreview := datasetSampleHoverPreview p;
     isLoadingSelection := isLoadingSelection p; issued := issued p |}.

Definition with_verticalAxisDimensionIndex (v : nat) (p : IndexPage) : IndexPage :=
  {| id := id p; project := project p;
     _horizontalAxisDimensionIndex := _horizontalAxisDimensionIndex p;
     _verticalAxisDimensionIndex := v;
     _selectedAnalysisMethod := _selectedAnalysisMethod p;
     _selectedCategory := _selectedCategory p;
     _selectedClustering := _selectedClustering p;
     _selectedEmbedding := _selectedEmbedding p; _analysis := _analysis p;
     graphData := graphData p; isLoading := isLoading p;
     selectedAttributions := selectedAttributions p; colorMaps := colorMaps p;
     selectedColorMap := selectedColorMap p; isHovering := isHovering p;
     datasetSampleHoverPreview := datasetSampleHoverPreview p;
     isLoadingSelection := isLoadingSelection p; issued := issued p |}.

Definition with_selectedAnalysisMethod (v : option AnalysisMethod.t) (p : IndexPage) : IndexPage :=
  {| id := id p; project := project p;
     _horizontalAxisDimensionIndex := _horizontalAxisDimensionIndex p;
     _verticalAxisDimensionIndex := _verticalAxisDimensionIndex p;
     _selectedAnalysisMethod := v; _selectedCategory := _selectedCategory p;
     _selectedClustering := _selectedClustering p;
     _selectedEmbedding := _selectedEmbedding p; _analysis := _analysis p;
     graphData := graphData p; isLoading := isLoading p;
     selectedAttributions := selectedAttributions p; colorMaps := colorMaps p;
     selectedColorMap := selectedColorMap p; isHovering := isHovering p;
     datasetSampleHoverPreview := datasetSampleHoverPreview p;
     isLoadingSelection := isLoadingSelection p; issued := issued p |}.

Definition with_selectedCategory (v : option AnalysisCategory.t) (p : IndexPage) : IndexPage :=
  {| id := id p; project := project p;
     _horizontalAxisDimensionIndex := _horizontalAxisDimensionIndex p;
     _verticalAxisDimensionIndex := _verticalAxisDimensionIndex p;
     _selectedAnalysisMethod := _selectedAnalysisMethod p; _selectedCategory := v;
     _selectedClustering := _selectedClustering p;
     _selectedEmbedding := _selectedEmbedding p; _analysis := _analysis p;
     graphData := graphData p; isLoading := isLoading p;
     selectedAttributions := selectedAttributions p; colorMaps := colorMaps p;
     selectedColorMap := selectedColorMap p; isHovering := isHovering p;
     datasetSampleHoverPreview := datasetSampleHoverPreview p;
     isLoadingSelection := isLoadingSelection p; issued := issued p |}.

Definition with_selectedClustering (v : option string) (p : IndexPage) : IndexPage :=
  {| id := id p; project := project p;
     _horizontalAxisDimensionIndex := _horizontalAxisDimensionIndex p;
     _verticalAxisDimensionIndex := _verticalAxisDimensionIndex p;
     _selectedAnalysisMethod := _selectedAnalysisMethod p;
     _selectedCategory := _selectedCategory p; _selectedClustering := v;
     _selectedEmbedding := _selectedEmbedding p; _analysis := _analysis p;
     graphData := graphData p; isLoading := isLoading p;
     selectedAttributions := selectedAttributions p; colorMaps := colorMaps p;
     selectedColorMap := selectedColorMap p; isHovering := isHovering p;
     datasetSampleHoverPreview := datasetSampleHoverPreview p;
     isLoadingSelection := isLoadingSelection p; issued := issued p |}.

Definition with_selectedEmbedding (v : option string) (p : IndexPage) : IndexPage :=
  {| id := id p; project := project p;
     _horizontalAxisDimensionIndex := _horizontalAxisDimensionIndex p;
     _verticalAxisDimensionIndex := _verticalAxisDimensionIndex p;
     _selectedAnalysisMethod := _selectedAnalysisMethod p;
     _selectedCategory := _selectedCategory p;
     _selectedClustering := _selectedClustering p; _selectedEmbedding := v;
     _analysis := _analysis p; graphData := graphData p; isLoading := isLoading p;
     selectedAttributions := selectedAttributions p; colorMaps := colorMaps p;
     selectedColorMap := selectedColorMap p; isHovering := isHovering p;
     datasetSampleHoverPreview := datasetSampleHoverPreview p;
     isLoadingSelection := isLoadingSelection p; issued := issued p |}.

Definition with_analysis (v : option Analysis.t) (p : IndexPage) : IndexPage :=
  {| id := id p; project := project p;
     _horizontalAxisDimensionIndex := _horizontalAxisDimensionIndex p;
     _verticalAxisDimensionIndex := _verticalAxisDimensionIndex p;
     _selectedAnalysisMethod := _selectedAnalysisMethod p;
     _selectedCategory := _selectedCategory p;
     _selectedClustering := _selectedClustering p;
     _selectedEmbedding := _selectedEmbedding p; _analysis := v; graphData := graphData p;
     isLoading := isLoading p; selectedAttributions := selectedAttributions p;
     colorMaps := colorMaps p; selectedColorMap := selectedColorMap p;
     isHovering := isHovering p; datasetSampleHoverPreview := datasetSampleHoverPreview p;
     isLoadingSelection := isLoadingSelection p; issued := issued p |}.

Definition with_graphData (v : option (list Series.t)) (p : IndexPage) : IndexPage :=
  {| id := id p; project := project p;
     _horizontalAxisDimensionIndex := _horizontalAxisDimensionIndex p;
     _verticalAxisDimensionIndex := _verticalAxisDimensionIndex p;
     _selectedAnalysisMethod := _selectedAnalysisMethod p;
     _selectedCategory := _selectedCategory p;
     _selectedClustering := _selectedClustering p;
     _selectedEmbedding := _selectedEmbedding p; _analysis := _analysis p; graphData := v;
     isLoading := isLoading p; selectedAttributions := selectedAttributions p;
     colorMaps := colorMaps p; selectedColorMap := selectedColorMap p;
     isHovering := isHovering p; datasetSampleHoverPreview := datasetSampleHoverPreview p;
     isLoadingSelection := isLoadingSelection p; issued := issued p |}.

Definition with_isLoading (v : bool) (p : IndexPage) : IndexPage :=
  {| id := id p; project := project p;
     _horizontalAxisDimensionIndex := _horizontalAxisDimensionIndex p;
     _verticalAxisDimensionIndex := _verticalAxisDimensionIndex p;
     _selectedAnalysisMethod := _selectedAnalysisMethod p;
     _selectedCategory := _selectedCategory p;
     _selectedClustering := _selectedClustering p;
     _selectedEmbedding := _selectedEmbedding p; _analysis := _analysis p;
     graphData := graphData p; isLoading := v;
     selectedAttributions := selectedAttributions p; colorMaps := colorMaps p;
     selectedColorMap := selectedColorMap p; isHovering := isHovering p;
     datasetSampleHoverPreview := datasetSampleHoverPreview p;
     isLoadingSelection := isLoadingSelection p; issued := issued p |}.

Definition with_selectedAttributions (v : option (list Attribution.t)) (p : IndexPage) : IndexPage :=
  {| id := id p; project := project p;
     _horizontalAxisDimensionIndex := _horizontalAxisDimensionIndex p;
     _verticalAxisDimensionIndex := _verticalAxisDimensionIndex p;
     _selectedAnalysisMethod := _selectedAnalysisMethod p;
     _selectedCategory := _selectedCategory p;
     _selectedClustering := _selectedClustering p;
     _selectedEmbedding := _selectedEmbedding p; _analysis := _analysis p;
     graphData := graphData p; isLoading := isLoading p; selectedAttributions := v;
     colorMaps := colorMaps p; selectedColorMap := selectedColorMap p;
     isHovering := isHovering p; datasetSampleHoverPreview := datasetSampleHoverPreview p;
     isLoadingSelection := isLoadingSelection p; issued := issued p |}.

Definition with_colorMaps (v : option (list ColorMap.t)) (p : IndexPage) : IndexPage :=
  {| id := id p; project := project p;
     _horizontalAxisDimensionIndex := _horizontalAxisDimensionIndex p;
     _verticalAxisDimensionIndex := _verticalAxisDimensionIndex p;
     _selectedAnalysisMethod := _selectedAnalysisMethod p;
     _selectedCategory := _selectedCategory p;
     _selectedClustering := _selectedClustering p;
     _selectedEmbedding := _selectedEmbedding p; _analysis := _analysis p;
     graphData := graphData p; isLoading := isLoading p;
     selectedAttributions := selectedAttributions p; colorMaps := v;
     selectedColorMap := selectedColorMap p; isHovering := isHovering p;
     datasetSampleHoverPreview := datasetSampleHoverPreview p;
     isLoadingSelection := isLoadingSelection p; issued := issued p |}.

Definition with_selectedColorMap (v : option ColorMap.t) (p : IndexPage) : IndexPage :=
  {| id := id p; project := project p;
     _horizontalAxisDimensionIndex := _horizontalAxisDimensionIndex p;
     _verticalAxisDimensionIndex := _verticalAxisDimensionIndex p;
     _selectedAnalysisMethod := _selectedAnalysisMethod p;
     _selectedCategory := _selectedCategory p;
     _selectedClustering := _selectedClustering p;
     _selectedEmbedding := _selectedEmbedding p; _analysis := _analysis p;
     graphData := graphData p; isLoading := isLoading p;
     selectedAttributions := selectedAttributions p; colorMaps := colorMaps p;
     selectedColorMap := v; isHovering := isHovering p;
     datasetSampleHoverPreview := datasetSampleHoverPreview p;
     isLoadingSelection := isLoadingSelection p; issued := issued p |}.

Definition with_isLoadingSelection (v : bool) (p : IndexPage) : IndexPage :=
  {| id := id p; project := project p;
     _horizontalAxisDimensionIndex := _horizontalAxisDimensionIndex p;
     _verticalAxisDimensionIndex := _verticalAxisDimensionIndex p;
     _selectedAnalysisMethod := _selectedAnalysisMethod p;
     _selectedCategory := _selectedCategory p;
     _selectedClustering := _selectedClustering p;
     _selectedEmbedding := _selectedEmbedding p; _analysis := _analysis p;
     graphData := graphData p; isLoading := isLoading p;
     selectedAttributions := selectedAttributions p; colorMaps := colorMaps p;
     selectedColorMap := selectedColorMap p; isHovering := isHovering p;
     datasetSampleHoverPreview := datasetSampleHoverPreview p; isLoadingSelection := v;
     issued := issued p |}.

Definition with_issued (v : list Request) (p : IndexPage) : IndexPage :=
  {| id := id p; project := project p;
     _horizontalAxisDimensionIndex := _horizontalAxisDimensionIndex p;
     _verticalAxisDimensionIndex := _verticalAxisDimensionIndex p;
     _selectedAnalysisMethod := _selectedAnalysisMethod p;
     _selectedCategory := _selectedCategory p;
     _selectedClustering := _selectedClustering p;
     _selectedEmbedding := _selectedEmbedding p; _analysis := _analysis p;
     graphData := graphData p; isLoading := isLoading p;
     selectedAttributions := selectedAttributions p; colorMaps := colorMaps p;
     selectedColorMap := selectedColorMap p; isHovering := isHovering p;
     datasetSampleHoverPreview := datasetSampleHoverPreview p;
     isLoadingSelection := isLoadingSelection p; issued := v |}.

(** The page as its constructor leaves it: the axis indices are 0 and 1,
    and nothing else is assigned yet.  The flags are only ever tested for
    truthiness, so a flag that was never assigned is [false]. *)
Definition IndexPage_new : IndexPage :=
  {| id := None; project := None;
     _horizontalAxisDimensionIndex := 0; _verticalAxisDimensionIndex := 1;
     _selectedAnalysisMethod := None; _selectedCategory := None;
     _selectedClustering := None; _selectedEmbedding := None;
     _analysis := None; graphData := None; isLoading := false;
     selectedAttributions := None; colorMaps := None; selectedColorMap := None;
     isHovering := false; datasetSampleHoverPreview := None;
     isLoadingSelection := false; issued := [] |}.

(** Sending a batch of requests, in order. *)
Definition issue (requests : list Request) (p : IndexPage) : IndexPage :=
  with_issued (issued p ++ requests) p.

(** How a segment of an [async] method ends: the method returned, it
    suspended at an [await] (with what it waits for), or it threw. *)
Inductive Outcome (K : Type) :=
| Returned
| Awaiting (pending : K)
| Thrown.
Arguments Returned {K}.
Arguments Awaiting {K} pending.
Arguments Thrown {K}.

(** How the promise of a completed [async] call is settled. *)
Inductive Settled :=
| Fulfilled
| Rejected.

(** ** Derived plot data *)

(** The getter [embeddingDimensions]. *)
Definition embeddingDimensions (p : IndexPage) : list nat :=
  match _analysis p with
  | None => []
  | Some analysis =>
      match Analysis.embedding analysis with
      | [] => []
      | first :: _ => seq 0 (length (Embedding.value first))
      end
  end.

(** The first loop of [refreshPlot]: a cluster identifier is pushed when
    [clusters.indexOf(cluster) === -1]. *)
Definition distinctClusters (clusterIds : list Z) : list Z :=
  foldl (λ clusters cluster,
           if decide (cluster ∈ clusters) then clusters else clusters ++ [cluster])
        [] clusterIds.

(** The points of one cluster, in the order of the embedding. *)
Definition embeddingsInCluster (embedding : list Embedding.t) (cluster : Z)
  : list Embedding.t :=
  filter (λ e, Embedding.cluster e = cluster) embedding.

(** The body of the second loop of [refreshPlot]: the series of one
    cluster. *)
Definition clusterSeries (embedding : list Embedding.t)
    (horizontalAxisDimensionIndex verticalAxisDimensionIndex : nat) (cluster : Z)
  : Series.t :=
  let embeddingsInCluster := embeddingsInCluster embedding cluster in
  {| Series.name := "Cluster " +:+ js_integer cluster;
     Series.x :=
       (λ e, Embedding.value e !! horizontalAxisDimensionIndex) <$> embeddingsInCluster;
     Series.y :=
       (λ e, Embedding.value e !! verticalAxisDimensionIndex) <$> embeddingsInCluster;
     Series.type := "scatter";
     Series.mode := "markers";
     Series.marker_size := 12;
     Series.hoverinfo := "none";
     Series.attributionIndices := Embedding.attributionIndex <$> embeddingsInCluster |}.

(** The array [refreshPlot] builds: one series per collected cluster. *)
Definition plotData (analysis : Analysis.t)
    (horizontalAxisDimensionIndex verticalAxisDimensionIndex : nat) : list Series.t :=
  let clusters := distinctClusters (Embedding.cluster <$> Analysis.embedding analysis) in
  clusterSeries (Analysis.embedding analysis)
    horizontalAxisDimensionIndex verticalAxisDimensionIndex <$> clusters.

(** [refreshPlot]: without an analysis it returns at once and the previous
    [graphData] stays. *)
Definition refreshPlot (p : IndexPage) : IndexPage :=
  match _analysis p with
  | None => p
  | Some analysis =>
      with_graphData
        (Some (plotData analysis
                 (_horizontalAxisDimensionIndex p) (_verticalAxisDimensionIndex p)))
        p
  end.

(** ** Reloading the analysis *)

(** [refreshAnalysisAsync], up to its [await]. *)
Definition refreshAnalysisAsync_0 (p : IndexPage) : IndexPage * Outcome Request :=
  match _selectedAnalysisMethod p, _selectedCategory p,
        _selectedClustering p, _selectedEmbedding p with
  | Some selectedAnalysisMethod, Some selectedCategory,
    Some selectedClustering, Some selectedEmbedding =>
      if truthy_string (Some selectedClustering) && truthy_string (Some selectedEmbedding)
      then
        let p := with_isLoading true p in
        let p := with_selectedAttributions None p in
        match project p with
        | None => (p, Thrown)
        | Some project =>
            let request :=
              AnalysesService.request (Project.id project)
                (AnalysisMethod.name selectedAnalysisMethod)
                (AnalysisCategory.name selectedCategory)
                selectedClustering selectedEmbedding in
            (issue [request] p, Awaiting request)
        end
      else (p, Returned)
  | _, _, _, _ => (p, Returned)
  end.

(** The setter of [analysis]. *)
Definition set_analysis (value : option Analysis.t) (p : IndexPage) : IndexPage :=
  refreshPlot (with_analysis value p).

(** [refreshAnalysisAsync], resumed with the fetched analysis. *)
Definition refreshAnalysisAsync_1 (sent : Analysis.t) (p : IndexPage) : IndexPage :=
  with_isLoading false (set_analysis (Some sent) p).

(** ** The property setters

    A setter that calls [refreshAnalysisAsync] does not await it: the call
    runs up to its [await] inside the setter, and the promise is dropped. *)

Definition set_horizontalAxisDimensionIndex (value : nat) (p : IndexPage) : IndexPage :=
  refreshPlot (with_horizontalAxisDimensionIndex value p).

Definition set_verticalAxisDimensionIndex (value : nat) (p : IndexPage) : IndexPage :=
  refreshPlot (with_verticalAxisDimensionIndex value p).

Definition set_selectedCategory (value : option AnalysisCategory.t) (p : IndexPage)
  : IndexPage :=
  let p := with_selectedCategory value p in
  if truthy_object value then (refreshAnalysisAsync_0 p).1 else p.

Definition set_selectedClustering (value : option string) (p : IndexPage) : IndexPage :=
  let p := with_selectedClustering value p in
  if truthy_string value then (refreshAnalysisAsync_0 p).1 else p.

Definition set_selectedEmbedding (value : option string) (p : IndexPage) : IndexPage :=
  let p := with_selectedEmbedding value p in
  let p := with_horizontalAxisDimensionIndex 0 p in
  let p := with_verticalAxisDimensionIndex 1 p in
  if truthy_string value then (refreshAnalysisAsync_0 p).1 else p.

(** The test [embeddings.filter(embedding => embedding === 'tsne').length > 0]. *)
Definition offersTsne (method : AnalysisMethod.t) : bool :=
  bool_decide (0 < length (filter (λ embedding, embedding = "tsne")
                                  (AnalysisMethod.embeddings method))).

(** The setter of [selectedAnalysisMethod].  The getter it reads back
    returns the value just stored. *)
Definition set_selectedAnalysisMethod (value : option AnalysisMethod.t) (p : IndexPage)
  : IndexPage :=
  let p := with_selectedAnalysisMethod value p in
  match value with
  | Some method =>
      let p := set_selectedCategory (head (AnalysisMethod.categories method)) p in
      let p := set_selectedClustering (head (AnalysisMethod.clusterings method)) p in
      let p :=
        if offersTsne method
        then set_selectedEmbedding (Some "tsne") p
        else set_selectedEmbedding (head (AnalysisMethod.embeddings method)) p in
      (refreshAnalysisAsync_0 p).1
  | None => p
  end.

(** ** Loading a project *)

(** [refreshProjectAsync], up to the fetch of the project. *)
Definition refreshProjectAsync_0 (p : IndexPage) : IndexPage * Outcome Request :=
  let p := with_isLoading true p in
  let request := ProjectsService.request (id p) in
  (issue [request] p, Awaiting request).

(** [refreshProjectAsync], resumed with the fetched project.  It ends at
    [await this.refreshAnalysisAsync()]: [Awaiting None] when that call
    returned at its guard, [Awaiting (Some r)] when it sent [r].  Reading
    the categories of an absent method throws. *)
Definition refreshProjectAsync_1 (sent : Project.t) (p : IndexPage)
  : IndexPage * Outcome (option Request) :=
  let p := with_project (Some sent) p in
  let p := with_selectedAttributions None p in
  let p := set_selectedAnalysisMethod (head (Project.analysisMethods sent)) p in
  match _selectedAnalysisMethod p with
  | None => (p, Thrown)
  | Some method =>
      let p := set_selectedCategory (head (AnalysisMethod.categories method)) p in
      let p := set_selectedClustering (head (AnalysisMethod.clusterings method)) p in
      let p :=
        if offersTsne method
        then set_selectedEmbedding (Some "tsne") p
        else set_selectedEmbedding (head (AnalysisMethod.embeddings method)) p in
      match refreshAnalysisAsync_0 p with
      | (p, Returned) => (p, Awaiting None)
      | (p, Awaiting request) => (p, Awaiting (Some request))
      | (p, Thrown) => (p, Thrown)
      end
  end.

(** [refreshProjectAsync], after the awaited refresh. *)
Definition refreshProjectAsync_2 (p : IndexPage) : IndexPage :=
  with_isLoading false p.

(** ** Initialisation *)

(** The route subscription of [ngOnInit]: [routeId] is the [id] parameter
    of the route as [parseInt] reads it, an integer or [NaN], and [None]
    when the route has no [id] or an empty one. *)
Definition onParamMap (routeId : option JsNum.t) (p : IndexPage) : IndexPage :=
  match routeId with
  | Some _ => (refreshProjectAsync_0 (with_id routeId p)).1
  | None => p
  end.

(** [ngOnInit], up to the fetch of the color maps.  The route emits its
    current parameters when it is subscribed to. *)
Definition ngOnInit_0 (routeId : option JsNum.t) (p : IndexPage)
  : IndexPage * Outcome Request :=
  let p := onParamMap routeId p in
  (issue [ColorMapsService.request] p, Awaiting ColorMapsService.request).

(** [ngOnInit], resumed with the fetched color maps. *)
Definition ngOnInit_1 (sent : list ColorMap.t) (p : IndexPage) : IndexPage :=
  let p := with_colorMaps (Some sent) p in
  let defaultColorMaps :=
    filter (λ colorMap, ColorMap.name colorMap = "black-fire-red") sent in
  if bool_decide (0 < length defaultColorMaps)
  then with_selectedColorMap (head defaultColorMaps) p
  else with_selectedColorMap (head sent) p.

(** ** Selection *)

(** The attribution index a data point of an event stands for. *)
Definition resolvePoint (dataPoint : DataPoint.t) : option Z :=
  Series.attributionIndices (DataPoint.data dataPoint) !! DataPoint.pointIndex dataPoint.

(** [onSelectedAsync], up to the fetch of the attributions.  The batch is
    the list of arguments of the [attributionsService.getAsync] calls;
    reading [this.project.id] throws when no project is loaded. *)
Definition onSelectedAsync_0 (eventInfo : option EventInfo.t) (p : IndexPage)
  : IndexPage * Outcome (list (Z * option Z)) :=
  match eventInfo with
  | None => (p, Returned)
  | Some eventInfo =>
      let p := with_isLoadingSelection true p in
      let attributionIndices := resolvePoint <$> EventInfo.points eventInfo in
      let attributionIndices := take 20 attributionIndices in
      match project p, attributionIndices with
      | Some project, _ =>
          let batch := (λ index, (Project.id project, index)) <$> attributionIndices in
          (issue (AttributionsService.request <$> batch) p, Awaiting batch)
      | None, [] => (p, Awaiting [])
      | None, _ :: _ => (p, Thrown)
      end
  end.

(** [onSelectedAsync], resumed with the fetched attributions. *)
Definition onSelectedAsync_1 (sent : list Attribution.t) (p : IndexPage)
  : IndexPage * Outcome (list (Z * Z)) :=
  let p := with_selectedAttributions (Some sent) p in
  match project p, sent with
  | Some project, _ =>
      let batch :=
        (λ attribution, (Project.id project, Attribution.index attribution)) <$> sent in
      (issue (DatasetService.request <$> batch) p, Awaiting batch)
  | None, [] => (p, Awaiting [])
  | None, _ :: _ => (p, Thrown)
  end.

(** The body of the last loop of [onSelectedAsync]: the first fetched
    sample with the attribution's index, [undefined] when there is none. *)
Definition assignSample (selectedDatasetSamples : list Sample.t)
    (attribution : Attribution.t) : Attribution.t :=
  Attribution.with_sample
    (head (filter (λ sample, Sample.index sample = Attribution.index attribution)
                  selectedDatasetSamples))
    attribution.

(** [onSelectedAsync], resumed with the fetched samples.  Iterating over an
    absent [selectedAttributions] throws. *)
Definition onSelectedAsync_2 (sent : list Sample.t) (p : IndexPage)
  : IndexPage * Outcome () :=
  match selectedAttributions p with
  | None => (p, Thrown)
  | Some attributions =>
      let p := with_selectedAttributions (Some (assignSample sent <$> attributions)) p in
      (with_isLoadingSelection false p, Returned)
  end.

(** Resuming a suspended method: [answer] settles what the segment waits
    for, and [next] is the segment that follows. *)
Definition resume {K A : Type} (step : IndexPage * Outcome K)
    (answer : K → option A) (next : A → IndexPage → IndexPage * Settled)
  : IndexPage * Settled :=
  match step with
  | (p, Returned) => (p, Fulfilled)
  | (p, Thrown) => (p, Rejected)
  | (p, Awaiting pending) =>
      match answer pending with
      | Some a => next a p
      | None => (p, Rejected)
      end
  end.

(** A whole run of [onSelectedAsync] against a backend, with no other
    handler running in between. *)
Definition onSelectedAsync (B : Backend) (eventInfo : option EventInfo.t) (p : IndexPage)
  : IndexPage * Settled :=
  resume (onSelectedAsync_0 eventInfo p)
    (Promise_all (AttributionsService.getAsync B))
    (λ attributions p,
       resume (onSelectedAsync_1 attributions p)
         (Promise_all (DatasetService.getAsync B))
         (λ samples p,
            resume (onSelectedAsync_2 samples p) (λ _, Some ()) (λ _ p, (p, Fulfilled)))).

(** [onDeselect] *)
Definition onDeselect (p : IndexPage) : IndexPage :=
  with_selectedAttributions None p.

(** ** Hovering *)

Definition with_isHovering (v : bool) (p : IndexPage) : IndexPage :=
  {| id := id p; project := project p;
     _horizontalAxisDimensionIndex := _horizontalAxisDimensionIndex p;
     _verticalAxisDimensionIndex := _verticalAxisDimensionIndex p;
     _selectedAnalysisMethod := _selectedAnalysisMethod p;
     _selectedCategory := _selectedCategory p;
     _selectedClustering := _selectedClustering p;
     _selectedEmbedding := _selectedEmbedding p; _analysis := _analysis p;
     graphData := graphData p; isLoading := isLoading p;
     selectedAttributions := selectedAttributions p; colorMaps := colorMaps p;
     selectedColorMap := selectedColorMap p; isHovering := v;
     datasetSampleHoverPreview := datasetSampleHoverPreview p;
     isLoadingSelection := isLoadingSelection p; issued := issued p |}.

Definition with_datasetSampleHoverPreview (v : option Sample.t) (p : IndexPage) : IndexPage :=
  {| id := id p; project := project p;
     _horizontalAxisDimensionIndex := _horizontalAxisDimensionIndex p;
     _verticalAxisDimensionIndex := _verticalAxisDimensionIndex p;
     _selectedAnalysisMethod := _selectedAnalysisMethod p;
     _selectedCategory := _selectedCategory p;
     _selectedClustering := _selectedClustering p;
     _selectedEmbedding := _selectedEmbedding p; _analysis := _analysis p;
     graphData := graphData p; isLoading := isLoading p;
     selectedAttributions := selectedAttributions p; colorMaps := colorMaps p;
     selectedColorMap := selectedColorMap p; isHovering := isHovering p;
     datasetSampleHoverPreview := v; isLoadingSelection := isLoadingSelection p;
     issued := issued p |}.
(** [onHoverAsync], up to the fetch of the attribution.  Only the first
    point of the event is read; reading it from an event without points
    throws, and so does reading the id of an absent project. *)
Definition onHoverAsync_0 (eventInfo : EventInfo.t) (p : IndexPage)
  : IndexPage * Outcome (Z * option Z) :=
  let p := with_isHovering true p in
  match EventInfo.points eventInfo with
  | [] => (p, Thrown)
  | dataPoint :: _ =>
      let attributionIndex := resolvePoint dataPoint in
      match project p with
      | None => (p, Thrown)
      | Some project =>
          let call := (Project.id project, attributionIndex) in
          (issue [AttributionsService.request call] p, Awaiting call)
      end
  end.

(** [onHoverAsync], resumed with the fetched attribution. *)
Definition onHoverAsync_1 (sent : Attribution.t) (p : IndexPage)
  : IndexPage * Outcome (Z * Z) :=
  match project p with
  | None => (p, Thrown)
  | Some project =>
      let call := (Project.id project, Attribution.index sent) in
      (issue [DatasetService.request call] p, Awaiting call)
  end.

(** [onHoverAsync], resumed with the fetched sample. *)
Definition onHoverAsync_2 (sent : Sample.t) (p : IndexPage) : IndexPage :=
  with_datasetSampleHoverPreview (Some sent) p.

(** A whole run of [onHoverAsync] against a backend, with no other handler
    running in between. *)
Definition onHoverAsync (B : Backend) (eventInfo : EventInfo.t) (p : IndexPage)
  : IndexPage * Settled :=
  resume (onHoverAsync_0 eventInfo p)
    (AttributionsService.getAsync B)
    (λ attribution p,
       resume (onHoverAsync_1 attribution p)
         (DatasetService.getAsync B)
         (λ sample p, (onHoverAsync_2 sample p, Fulfilled))).

(** [onUnhover] *)
Definition onUnhover (p : IndexPage) : IndexPage :=
  let p := with_isHovering false p in
  with_datasetSampleHoverPreview None p.

(** ** What the template renders ([index.page.html])

    The [*ngIf] conditions of the hover preview and of the three states of
    the side panel. *)

(** [*ngIf="datasetSampleHoverPreview && isHovering"]: the sample whose
    image is shown over the plot. *)
Definition shownHoverPreview (p : IndexPage) : option Sample.t :=
  match datasetSampleHoverPreview p with
  | Some sample => if isHovering p then Some sample else None
  | None => None
  end.

(** [*ngIf="isLoadingSelection"] *)
Definition showsSelectionSpinner (p : IndexPage) : bool :=
  isLoadingSelection p.

(** [*ngIf="!isLoadingSelection && (!selectedAttributions ||
    selectedAttributions.length === 0)"] *)
Definition showsSelectionHint (p : IndexPage) : bool :=
  negb (isLoadingSelection p) &&
  match selectedAttributions p with
  | None => true
  | Some attributions => bool_decide (length attributions = 0)
  end.

(** [*ngIf="!isLoadingSelection && selectedAttributions &&
    selectedAttributions.length > 0"] *)
Definition showsSelectionList (p : IndexPage) : bool :=
  negb (isLoadingSelection p) &&
  match selectedAttributions p with
  | None => false
  | Some attributions => bool_decide (0 < length attributions)
  end.

(** * The before-and-after slider ([before-and-after-slider.component.ts])

    The component keeps its state in two inline styles, [left] of the
    slider handle and [clip] of the before image, and in the two variables
    that its listeners close over.  Lengths reach it as numbers of the
    browser: the widths and heights of bounding rectangles and the pointer
    positions of mouse events. *)

Module BeforeAndAfterSliderComponent.

(** What the listeners ask of the browser.  [number] is the type of its
    numbers: the sides of a bounding rectangle and the pointer position of
    a mouse event are numbers, of any fraction of a pixel.  The model fixes
    neither their arithmetic nor their text, nor which texts a style
    property accepts and how it reads them back. *)
Class Browser (number : Type) := {
  (** [x - undefined] *)
  NaN : number;
  (** [x / 2] *)
  half : number → number;
  (** [x + y] and [x - y] on numbers *)
  add : number → number → number;
  sub : number → number → number;
  (** the text [x + "px"] starts with *)
  toString : number → string;
  (** [parseInt(text, 10)] *)
  parseInt : string → number;
  (** [style[name] = text]: what [style[name]] reads afterwards, given
      what it read before *)
  setProperty : string → string → string → string
}.

(** The two style properties the listeners write and the two variables
    they share. *)
Record t (number : Type) := {
  sliderHandle_style_left : string;
  beforeImage_style_clip : string;
  isMouseDown : bool;
  sliderHandlePosition : option number
}.
Arguments sliderHandle_style_left {number}.
Arguments beforeImage_style_clip {number}.
Arguments isMouseDown {number}.
Arguments sliderHandlePosition {number}.

Section listeners.
Context {number : Type} `{!Browser number}.

(** [ngAfterViewInit], given the widths of the bounding rectangles of the
    handle and of the before image: the styles it sets on the two
    elements, which the template creates without a style of their own, and
    the variables its listeners start with. *)
Definition ngAfterViewInit (sliderHandleWidth imageWidth : number) : t number :=
  {| sliderHandle_style_left :=
       setProperty "left"
         (toString (sub (half imageWidth) (half sliderHandleWidth)) +:+ "px") "";
     beforeImage_style_clip :=
       setProperty "clip"
         ("rect(0px, " +:+ toString (half imageWidth) +:+ "px, 999px, 0px)") "";
     isMouseDown := false;
     sliderHandlePosition := None |}.

(** The [mousedown] listener of the handle. *)
Definition mousedown (clientX : number) (s : t number) : t number :=
  {| sliderHandle_style_left := sliderHandle_style_left s;
     beforeImage_style_clip := beforeImage_style_clip s;
     isMouseDown := true;
     sliderHandlePosition := Some clientX |}.

(** The [mouseup] and [mouseleave] listeners of the document. *)
Definition mouseup (s : t number) : t number :=
  {| sliderHandle_style_left := sliderHandle_style_left s;
     beforeImage_style_clip := beforeImage_style_clip s;
     isMouseDown := false;
     sliderHandlePosition := sliderHandlePosition s |}.

Definition mouseleave (s : t number) : t number := mouseup s.

(** The [mousemove] listener of the handle, given the pointer position and
    the width and height of the handle's bounding rectangle at the time of
    the event. *)
Definition mousemove (clientX width height : number) (s : t number) : t number :=
  if isMouseDown s then
    let moved :=
      match sliderHandlePosition s with
      | Some position => sub clientX position
      | None => NaN
      end in
    let left :=
      setProperty "left"
        (toString (add (parseInt (sliderHandle_style_left s)) moved) +:+ "px")
        (sliderHandle_style_left s) in
    {| sliderHandle_style_left := left;
       beforeImage_style_clip :=
         setProperty "clip"
           ("rect(0px, " +:+ toString (add (half width) (parseInt left))
              +:+ "px, " +:+ toString height +:+ "px, 0px)")
           (beforeImage_style_clip s);
       isMouseDown := true;
       sliderHandlePosition := Some clientX |}
  else s.

(** A run of pointer moves over the handle, whose rectangle stays
    [width] by [height]. *)
Definition mousemoves (clientXs : list number) (width height : number) (s : t number)
  : t number :=
  foldl (λ s clientX, mousemove clientX width height s) s clientXs.

End listeners.
End BeforeAndAfterSliderComponent.

(** * Vocabulary of the properties *)

(** [ks] lists identifiers in the order in which they first appear in [l]:
    of two entries of [ks], the earlier one occurs in [l] before every
    occurrence of the later one. *)
Definition firstAppearanceOrder (ks l : list Z) : Prop :=
  ∀ i j ki kj, i < j → ks !! i = Some ki → ks !! j = Some kj →
    ∃ n, l !! n = Some ki ∧ ∀ m, l !! m = Some kj → n < m.

(** Series [s] shows cluster [k]: it is named after [k], and its three
    arrays run in parallel over the points of the embedding whose cluster
    is [k], in the order of the embedding. *)
Definition showsCluster (embedding : list Embedding.t) (h v : nat) (k : Z)
    (s : Series.t) : Prop :=
  let points := filter (λ e, Embedding.cluster e = k) embedding in
  Series.name s = "Cluster " +:+ js_integer k ∧
  Series.attributionIndices s = Embedding.attributionIndex <$> points ∧
  Series.x s = (λ e, Embedding.value e !! h) <$> points ∧
  Series.y s = (λ e, Embedding.value e !! v) <$> points.

(** The selection and what is derived from it: every field of the page
    except the loading flags, the side panel, the hover preview, the color
    maps and the request history. *)
Definition selection (p : IndexPage) :=
  (project p, _selectedAnalysisMethod p, _selectedCategory p, _selectedClustering p,
   _selectedEmbedding p, _horizontalAxisDimensionIndex p, _verticalAxisDimensionIndex p,
   _analysis p, graphData p).

(** The requests of the Analyses gateway. *)
Definition isAnalysisRequest (r : Request) : bool :=
  match r with
  | GetAnalysis _ _ _ _ _ => true
  | _ => false
  end.

(** The call count of the Analyses gateway: the Analysis fetches in the
    request history. *)
Definition analysisFetchCount (p : IndexPage) : nat :=
  length (filter (λ r, isAnalysisRequest r = true) (issued p)).

(** The embedding a method starts with. *)
Definition initialEmbedding (method : AnalysisMethod.t) : option string :=
  if offersTsne method then Some "tsne" else head (AnalysisMethod.embeddings method).

(** The arguments of the two batches of a run: the attribution calls for
    the first 20 points of the event, and the sample calls for a list of
    attributions. *)
Definition attributionBatch (loaded : Project.t) (eventInfo : EventInfo.t)
  : list (Z * option Z) :=
  (λ dataPoint, (Project.id loaded, resolvePoint dataPoint))
    <$> take 20 (EventInfo.points eventInfo).

Definition sampleBatch (loaded : Project.t) (attributions : list Attribution.t)
  : list (Z * Z) :=
  (λ attribution, (Project.id loaded, Attribution.index attribution)) <$> attributions.

(** The page a run ends with when both batches are answered. *)
Definition selectedPage (loaded : Project.t) (eventInfo : EventInfo.t)
    (attributions : list Attribution.t) (samples : list Sample.t) (p : IndexPage)
  : IndexPage :=
  let p := with_isLoadingSelection true p in
  let p := issue (AttributionsService.request <$> attributionBatch loaded eventInfo) p in
  let p := with_selectedAttributions (Some attributions) p in
  let p := issue (DatasetService.request <$> sampleBatch loaded attributions) p in
  let p := with_selectedAttributions (Some (assignSample samples <$> attributions)) p in
  with_isLoadingSelection false p.

(** The requests of the Dataset gateway. *)
Definition isSampleRequest (r : Request) : bool :=
  match r with
  | GetSample _ _ => true
  | _ => false
  end.

(** The sample requests in a request history. *)
Definition sampleFetches (p : IndexPage) : list Request :=
  filter (λ r, isSampleRequest r = true) (issued p).

(** The stored plot is the plot of the loaded analysis along the current
    axes. *)
Definition plotConsistent (p : IndexPage) : Prop :=
  ∀ analysis, _analysis p = Some analysis →
    graphData p =
      Some (plotData analysis
              (_horizontalAxisDimensionIndex p) (_verticalAxisDimensionIndex p)).

(** An Analysis request names a clustering and an embedding. *)
Definition wellKeyed (r : Request) : Prop :=
  match r with
  | GetAnalysis _ _ _ clustering embedding => clustering ≠ "" ∧ embedding ≠ ""
  | _ => False
  end.

(** Page [p'] has sent what [p] has sent, followed by at most [n] further
    requests, each an Analysis request that names a clustering and an
    embedding. *)
Definition sendsAnalyses (n : nat) (p p' : IndexPage) : Prop :=
  ∃ requests,
    issued p' = issued p ++ requests ∧
    length requests ≤ n ∧
    Forall wellKeyed requests.

(** Up to [bound] the browser computes with whole pixels exactly, where
    [ofInt z] is the number that is the integer [z]: the sum and the
    difference of two whole numbers are the whole numbers they should be,
    and a whole length that is assigned to [left] parses back as itself.
    The numbers of JavaScript are exact on the integers up to 2^53, and a
    style keeps a whole length as long as it writes it out in full. *)
Definition wholePixels {number : Type} `{!BeforeAndAfterSliderComponent.Browser number}
    (ofInt : Z → number) (bound : Z) : Prop :=
  (∀ a b, (Z.abs a ≤ bound)%Z → (Z.abs b ≤ bound)%Z → (Z.abs (a + b) ≤ bound)%Z →
          BeforeAndAfterSliderComponent.add (ofInt a) (ofInt b) = ofInt (a + b)%Z) ∧
  (∀ a b, (Z.abs a ≤ bound)%Z → (Z.abs b ≤ bound)%Z → (Z.abs (a - b) ≤ bound)%Z →
          BeforeAndAfterSliderComponent.sub (ofInt a) (ofInt b) = ofInt (a - b)%Z) ∧
  (∀ a current, (Z.abs a ≤ bound)%Z →
     BeforeAndAfterSliderComponent.parseInt
       (BeforeAndAfterSliderComponent.setProperty "left"
          (BeforeAndAfterSliderComponent.toString (ofInt a) +:+ "px") current)
     = ofInt a).

Module UrlText.
Import Stdlib.Strings.Ascii.

(** A string without the path separator. *)
Fixpoint noSlash (s : string) : Prop :=
  match s with
  | EmptyString => True
  | String c rest => c ≠ "/"%char ∧ noSlash rest
  end.

(** A string of decimal digits and minus signs. *)
Fixpoint numeral (s : string) : Prop :=
  match s with
  | EmptyString => True
  | String c rest =>
      (c = "-"%char ∨ (48 ≤ N_of_ascii c ≤ 57)%N) ∧ numeral rest
  end.
End UrlText.

(** The integers a number holds exactly, each as a number of its own. *)
Definition safeInteger (z : Z) : Prop := (Z.abs z < 2 ^ 53)%Z.

Definition safeValue (n : option JsNum.t) : Prop :=
  match n with
  | Some (JsNum.Int z) => safeInteger z
  | _ => True
  end.

(** A request whose project id and index are [undefined], [NaN] or
    integers that a number holds exactly. *)
Definition safeRequest (r : Request) : Prop :=
  match r with
  | GetProjectById id => safeValue id
  | GetAnalysis projectId _ _ _ _ => safeInteger projectId
  | GetAttribution projectId index =>
      safeInteger projectId ∧ safeValue (JsNum.Int <$> index)
  | GetSample projectId index => safeInteger projectId ∧ safeInteger index
  | _ => True
  end.

(** Analysis responses, applied in the order in which they arrive. *)
Definition analysesArrive (responses : list Analysis.t) (p : IndexPage) : IndexPage :=
  foldl (λ p sent, refreshAnalysisAsync_1 sent p) p responses.

(** * Scenarios

    Concrete projects, analyses, backends and events, used to run the
    model and to instantiate the theorems. *)

Definition coord (n : Z) : Coord := QArith_base.Qmake n 1.

Definition point (cluster attributionIndex : Z) (value : list Z) : Embedding.t :=
  {| Embedding.cluster := cluster;
     Embedding.attributionIndex := attributionIndex;
     Embedding.value := coord <$> value |}.

Definition exampleAnalysis : Analysis.t :=
  {| Analysis.categoryName := "cat-1";
     Analysis.humanReadableCategoryName := "Category 1";
     Analysis.clusteringName := "kmeans-5";
     Analysis.embeddingName := "tsne";
     Analysis.embedding :=
       [point 7 100 [1; 2; 3]; point 2 101 [4; 5; 6]; point 7 102 [7; 8; 9];
        point 5 103 [10; 11; 12]; point 2 104 [13; 14; 15]]%Z;
     Analysis.eigenValues := [];
     Analysis.baseEmbeddingName := None;
     Analysis.baseEmbeddingAxesIndices := None |}.

Definition examplePlotPage : IndexPage :=
  with_verticalAxisDimensionIndex 2 (with_analysis (Some exampleAnalysis) IndexPage_new).

(** The scenario of the cascade: one method ["lrp"] with the embeddings
    [tsne] and [umap], loaded into a fresh page on the route of project 1. *)
Definition lrp : AnalysisMethod.t :=
  {| AnalysisMethod.name := "lrp";
     AnalysisMethod.categories :=
       [{| AnalysisCategory.name := "cat-1";
           AnalysisCategory.humanReadableName := "Category 1" |}];
     AnalysisMethod.clusterings := ["kmeans-5"];
     AnalysisMethod.embeddings := ["tsne"; "umap"] |}.

Definition lrpProject : Project.t :=
  {| Project.id := 1;
     Project.name := "project";
     Project.model := "model";
     Project.dataset := "dataset";
     Project.analysisMethods := [lrp] |}.

Definition loadingPage : IndexPage :=
  (ngOnInit_0 (Some (JsNum.Int 1)) IndexPage_new).1.

Definition lrpRequest : Request := GetAnalysis 1 "lrp" "cat-1" "kmeans-5" "tsne".

Definition colorMap (name : string) : ColorMap.t :=
  {| ColorMap.name := name; ColorMap.humanReadableName := name;
     ColorMap.url := environment.apiBaseUrl +:+ "/api/color-maps/" +:+ name |}.

Definition attributionPayload (index : Z) : Attribution.json.t :=
  {| Attribution.json.index := index;
     Attribution.json.labels := LabelList ["cat"; "tabby"];
     Attribution.json.prediction := "cat";
     Attribution.json.width := 224;
     Attribution.json.height := 224;
     Attribution.json.url := "/api/projects/1/attributions/" +:+ pretty index +:+ "/heatmap";
     Attribution.json.urls :=
       {[ "black-fire-red" :=
            "/api/projects/1/attributions/" +:+ pretty index
              +:+ "/heatmap?colorMap=black-fire-red";
          "gray" :=
            "/api/projects/1/attributions/" +:+ pretty index
              +:+ "/heatmap?colorMap=gray" ]} |}.

Definition samplePayload (index : Z) : Sample.json.t :=
  {| Sample.json.index := index;
     Sample.json.labels := Label "cat";
     Sample.json.width := 224;
     Sample.json.height := 224;
     Sample.json.url := "/api/projects/1/dataset/" +:+ pretty index +:+ "/image" |}.

Definition colorMapPayload (name : string) : ColorMap.json.t :=
  {| ColorMap.json.name := name;
     ColorMap.json.humanReadableName := name;
     ColorMap.json.url := "/api/color-maps/" +:+ name |}.

(** A backend that serves the attribution and the sample of every index
    it is asked for, and fails on an [undefined] index. *)
Definition echoBackend : Backend :=
  {| serveProject := λ _, Some lrpProject;
     serveAnalysis := λ _ _ _ _ _, Some exampleAnalysis;
     serveAttribution := λ _ index, attributionPayload <$> index;
     serveSample := λ _ index, Some (samplePayload index);
     serveColorMaps := Some [colorMapPayload "gray"; colorMapPayload "black-fire-red"] |}.

(** The same backend, except that the sample it serves for index [i] says
    that its index is [i + 1]. *)
Definition shiftedBackend : Backend :=
  {| serveProject := serveProject echoBackend;
     serveAnalysis := serveAnalysis echoBackend;
     serveAttribution := serveAttribution echoBackend;
     serveSample := λ _ index, Some (samplePayload (index + 1));
     serveColorMaps := serveColorMaps echoBackend |}.

(** The same backend over a dataset of 1000 samples: the sample of any
    other index is not found. *)
Definition finiteBackend : Backend :=
  {| serveProject := serveProject echoBackend;
     serveAnalysis := serveAnalysis echoBackend;
     serveAttribution := serveAttribution echoBackend;
     serveSample := λ projectId index,
       if bool_decide (0 ≤ index < 1000)%Z
       then serveSample echoBackend projectId index
       else None;
     serveColorMaps := serveColorMaps echoBackend |}.

Definition projectPage : IndexPage := with_project (Some lrpProject) IndexPage_new.

Definition seriesOf (attributionIndices : list Z) : Series.t :=
  {| Series.name := "Cluster 0";
     Series.x := (λ _, Some (coord 0)) <$> attributionIndices;
     Series.y := (λ _, Some (coord 0)) <$> attributionIndices;
     Series.type := "scatter";
     Series.mode := "markers";
     Series.marker_size := 12;
     Series.hoverinfo := "none";
     Series.attributionIndices := attributionIndices |}.

Definition selectionOf (series : Series.t) (pointIndices : list nat) : EventInfo.t :=
  {| EventInfo.points :=
       (λ i, {| DataPoint.data := series; DataPoint.pointIndex := i |}) <$> pointIndices |}.

(** 25 points, with the attribution indices 100 to 124. *)
Definition selection25 : EventInfo.t := selectionOf (seriesOf (seqZ 100 25)) (seq 0 25).

(** Two points that stand for the same attribution. *)
Definition twinSelection : EventInfo.t := selectionOf (seriesOf [7; 7]%Z) [0; 1].

Definition emptySelection : EventInfo.t := {| EventInfo.points := [] |}.

(** The page after the twin selection has been handled. *)
Definition selectedOnce : IndexPage :=
  (onSelectedAsync echoBackend (Some twinSelection) projectPage).1.

(** A selection whose second point lies past the end of its series. *)
Definition strayPointSelection : EventInfo.t := selectionOf (seriesOf [7]%Z) [0; 5].

(** A page that redrew the plot of [exampleAnalysis] along the axes 0 and 2. *)
Definition redrawnPage : IndexPage :=
  set_verticalAxisDimensionIndex 2 (with_analysis (Some exampleAnalysis) IndexPage_new).

(** A project without analysis methods, and one whose only method has no
    category. *)
Definition emptyProject : Project.t :=
  {| Project.id := 2;
     Project.name := "empty";
     Project.model := "model";
     Project.dataset := "dataset";
     Project.analysisMethods := [] |}.

Definition bareMethod : AnalysisMethod.t :=
  {| AnalysisMethod.name := "bare";
     AnalysisMethod.categories := [];
     AnalysisMethod.clusterings := ["kmeans-5"];
     AnalysisMethod.embeddings := ["tsne"] |}.

Definition bareProject : Project.t :=
  {| Project.id := 3;
     Project.name := "bare";
     Project.model := "model";
     Project.dataset := "dataset";
     Project.analysisMethods := [bareMethod] |}.

(** A browser to run the slider in.  Its numbers are the fractions
    [m / 2^k] of a pixel, computed exactly, and [NaN]; a style property
    keeps a text as it is written, except that it drops one that mentions
    [NaN].  This is how a browser treats the sizes of a page, which are
    far from the limits of its numbers. *)
Module ExactBrowser.
Import Stdlib.Strings.Ascii.

Inductive number :=
| Ratio (m : Z) (k : nat)
| NaN.

Definition ofInt (z : Z) : number := Ratio z 0.

Definition half (x : number) : number :=
  match x with
  | Ratio m k => Ratio m (S k)
  | NaN => NaN
  end.

Definition add (x y : number) : number :=
  match x, y with
  | Ratio m k, Ratio m' k' =>
      Ratio (m * 2 ^ Z.of_nat (k `max` k' - k) + m' * 2 ^ Z.of_nat (k `max` k' - k'))
            (k `max` k')
  | _, _ => NaN
  end.

Definition sub (x y : number) : number :=
  match x, y with
  | Ratio m k, Ratio m' k' =>
      Ratio (m * 2 ^ Z.of_nat (k `max` k' - k) - m' * 2 ^ Z.of_nat (k `max` k' - k'))
            (k `max` k')
  | _, _ => NaN
  end.

Fixpoint zeros (n : nat) : string :=
  match n with
  | O => ""
  | S n => "0" +:+ zeros n
  end.

Fixpoint stripZeros (s : string) : string :=
  match s with
  | EmptyString => ""
  | String c rest =>
      match stripZeros rest with
      | EmptyString => if Ascii.eqb c "0" then "" else String c ""
      | kept => String c kept
      end
  end.

(** The decimal places of [r / 2^k], for [0 ≤ r < 2^k]. *)
Definition decimals (r : Z) (k : nat) : string :=
  let digits := pretty (r * 5 ^ Z.of_nat k)%Z in
  stripZeros (zeros (k - String.length digits) +:+ digits).

Definition toString (x : number) : string :=
  match x with
  | NaN => "NaN"
  | Ratio m k =>
      let a := Z.abs m in
      let places := decimals (a `mod` 2 ^ Z.of_nat k) k in
      (if (m <? 0)%Z then "-" else "")
        +:+ pretty (a `div` 2 ^ Z.of_nat k)%Z
        +:+ (if bool_decide (places = "") then "" else "." +:+ places)
  end.

Definition digitValue (c : ascii) : option N :=
  let n := N_of_ascii c in
  if (48 <=? n)%N && (n <=? 57)%N then Some (n - 48)%N else None.

Definition isWhiteSpace (c : ascii) : bool :=
  let n := N_of_ascii c in
  ((9 <=? n)%N && (n <=? 13)%N) || (n =? 32)%N.

Fixpoint skipWhiteSpace (s : string) : string :=
  match s with
  | String c rest => if isWhiteSpace c then skipWhiteSpace rest else s
  | EmptyString => s
  end.

Fixpoint readDigits (acc : N) (s : string) : N :=
  match s with
  | String c rest =>
      match digitValue c with
      | Some d => readDigits (acc * 10 + d) rest
      | None => acc
      end
  | EmptyString => acc
  end.

Definition startsWithDigit (s : string) : bool :=
  match s with
  | String c _ => bool_decide (is_Some (digitValue c))
  | EmptyString => false
  end.

(** [parseInt(s, 10)]: white space, an optional sign and the longest run of
    decimal digits; [NaN] when there is no digit. *)
Definition parseInt (s : string) : number :=
  let s := skipWhiteSpace s in
  let '(negative, digits) :=
    match s with
    | String "-"%char rest => (true, rest)
    | String "+"%char rest => (false, rest)
    | _ => (false, s)
    end in
  if startsWithDigit digits
  then ofInt ((if negative then -1 else 1) * Z.of_N (readDigits 0 digits))
  else NaN.

(** Whether [word] occurs in [text]. *)
Fixpoint mentions (word text : string) : bool :=
  String.prefix word text ||
  match text with
  | String _ rest => mentions word rest
  | EmptyString => false
  end.

Definition setProperty (name text current : string) : string :=
  if mentions "NaN" text then current else text.

#[global] Instance browser : BeforeAndAfterSliderComponent.Browser number :=
  {| BeforeAndAfterSliderComponent.NaN := NaN;
     BeforeAndAfterSliderComponent.half := half;
     BeforeAndAfterSliderComponent.add := add;
     BeforeAndAfterSliderComponent.sub := sub;
     BeforeAndAfterSliderComponent.toString := toString;
     BeforeAndAfterSliderComponent.parseInt := parseInt;
     BeforeAndAfterSliderComponent.setProperty := setProperty |}.

End ExactBrowser.

(** A handle 200 pixels wide over an image 333.5 pixels wide; the button
    goes down at 100, and the pointer moves to 103 and then to 110 over a
    handle 150 pixels high. *)
Definition centredSlider : BeforeAndAfterSliderComponent.t ExactBrowser.number :=
  BeforeAndAfterSliderComponent.ngAfterViewInit
    (ExactBrowser.ofInt 200) (ExactBrowser.Ratio 667 1).

Definition draggedSlider : BeforeAndAfterSliderComponent.t ExactBrowser.number :=
  BeforeAndAfterSliderComponent.mousemoves
    [ExactBrowser.ofInt 103; ExactBrowser.ofInt 110]
    (ExactBrowser.ofInt 200) (ExactBrowser.ofInt 150)
    (BeforeAndAfterSliderComponent.mousedown (ExactBrowser.ofInt 100) centredSlider).

(** * Properties *)

#[local] Set Warnings "-clear-no-such-hyp".

(** ** The clusters of a plot *)

Section distinct_clusters.
Implicit Types (l : list Z) (k c : Z).

Lemma distinctClusters_snoc l c :
  distinctClusters (l ++ [c]) =
  if decide (c ∈ distinctClusters l) then distinctClusters l
  else distinctClusters l ++ [c].
Proof. unfold distinctClusters. by rewrite foldl_snoc. Qed.

Lemma elem_of_distinctClusters l k : k ∈ distinctClusters l ↔ k ∈ l.
Proof.
  revert k. induction l as [|c l IH] using rev_ind; intros k; [done|].
  rewrite distinctClusters_snoc. case_decide as Hc.
  - rewrite elem_of_app, list_elem_of_singleton, IH. rewrite IH in Hc. naive_solver.
  - by rewrite !elem_of_app, IH.
Qed.

Lemma NoDup_distinctClusters l : NoDup (distinctClusters l).
Proof.
  induction l as [|c l IH] using rev_ind; [constructor|].
  rewrite distinctClusters_snoc. case_decide; [done|].
  apply NoDup_app. split_and!; [done| |apply NoDup_singleton].
  intros x Hx ->%list_elem_of_singleton. done.
Qed.

Lemma distinctClusters_order l : firstAppearanceOrder (distinctClusters l) l.
Proof.
  induction l as [|c l IH] using rev_ind; [by intros i j ki kj _ ?|].
  rewrite distinctClusters_snoc. intros i j ki kj Hij Hi Hj. case_decide as Hc.
  - destruct (IH i j ki kj Hij Hi Hj) as (n & Hn & Hfirst).
    exists n. split; [by apply lookup_app_l_Some|].
    intros m Hm. apply lookup_app_Some in Hm as [Hm|[Hlen Hm]]; [by apply Hfirst|].
    apply lookup_lt_Some in Hn. lia.
  - destruct (decide (j < length (distinctClusters l))) as [Hlt|Hge].
    + rewrite lookup_app_l in Hi by lia. rewrite lookup_app_l in Hj by lia.
      destruct (IH i j ki kj Hij Hi Hj) as (n & Hn & Hfirst).
      exists n. split; [by apply lookup_app_l_Some|].
      intros m Hm. apply lookup_app_Some in Hm as [Hm|[Hlen Hm]]; [by apply Hfirst|].
      apply list_lookup_singleton_Some in Hm as [_ ->].
      apply list_elem_of_lookup_2 in Hj. done.
    + rewrite lookup_app_r in Hj by lia.
      apply list_lookup_singleton_Some in Hj as [Hj0 ->].
      rewrite lookup_app_l in Hi by lia.
      apply list_elem_of_lookup_2 in Hi. rewrite elem_of_distinctClusters in Hi.
      apply list_elem_of_lookup_1 in Hi as [n Hn]. exists n.
      split; [by apply lookup_app_l_Some|].
      intros m Hm. apply lookup_app_Some in Hm as [Hm|[Hlen Hm]].
      * apply list_elem_of_lookup_2 in Hm. rewrite <-elem_of_distinctClusters in Hm. done.
      * apply lookup_lt_Some in Hn. lia.
Qed.
End distinct_clusters.

(** Splitting a list by a duplicate-free list of keys that covers it loses
    and repeats nothing. *)
Section partition.
Context {A : Type} (key : A → Z).

Lemma filter_key_split (k : Z) (ks : list Z) (l : list A) :
  k ∉ ks →
  filter (λ e, key e = k) l ++ filter (λ e, key e ∈ ks) l
    ≡ₚ filter (λ e, key e ∈ k :: ks) l.
Proof.
  intros Hk. induction l as [|e l IH]; [done|].
  rewrite !filter_cons. destruct (decide (key e = k)) as [Heq|Hne].
  - rewrite decide_False by (by rewrite Heq).
    rewrite decide_True by set_solver. simpl. by f_equiv.
  - destruct (decide (key e ∈ ks)) as [Hin|Hnin].
    + rewrite decide_True by set_solver.
      rewrite <-Permutation_middle. by f_equiv.
    + rewrite decide_False by set_solver. done.
Qed.

Lemma mjoin_filter_keys (ks : list Z) (l : list A) :
  NoDup ks →
  mjoin ((λ k, filter (λ e, key e = k) l) <$> ks) ≡ₚ filter (λ e, key e ∈ ks) l.
Proof.
  induction 1 as [|k ks Hk _ IH]; simpl.
  - induction l as [|e l IHl]; [done|].
    rewrite filter_cons_False; [done|]. set_solver.
  - rewrite IH. by apply filter_key_split.
Qed.

Lemma mjoin_filter_partition (ks : list Z) (l : list A) :
  NoDup ks → (∀ e, e ∈ l → key e ∈ ks) →
  mjoin ((λ k, filter (λ e, key e = k) l) <$> ks) ≡ₚ l.
Proof.
  intros Hnd Hcover. rewrite mjoin_filter_keys by done.
  induction l as [|e l IH]; [done|].
  rewrite filter_cons_True by (apply Hcover; set_solver).
  f_equiv. apply IH. intros e' He'. apply Hcover. set_solver.
Qed.
End partition.

Lemma mjoin_fmap_fmap {A B K : Type} (f : A → B) (g : K → list A) (ks : list K) :
  mjoin ((λ k, f <$> g k) <$> ks) = f <$> mjoin (g <$> ks).
Proof.
  induction ks as [|k ks IH]; [done|].
  change ((f <$> g k) ++ mjoin ((λ k, f <$> g k) <$> ks)
          = f <$> (g k ++ mjoin (g <$> ks))).
  by rewrite IH, fmap_app.
Qed.

(** ** A worked plot, computed *)

Example refreshPlot_example :
  (λ s, (Series.name s, Series.attributionIndices s, Series.x s, Series.y s))
    <$> default [] (graphData (refreshPlot examplePlotPage)) =
  [("Cluster 7", [100; 102]%Z, [Some (coord 1); Some (coord 7)],
                               [Some (coord 3); Some (coord 9)]);
   ("Cluster 2", [101; 104]%Z, [Some (coord 4); Some (coord 13)],
                               [Some (coord 6); Some (coord 15)]);
   ("Cluster 5", [103]%Z, [Some (coord 10)], [Some (coord 12)])].
Proof. vm_compute. reflexivity. Qed.

(** An axis index past the dimension of the points reads [undefined]. *)
Example refreshPlot_axis_out_of_range :
  Series.x <$> default [] (graphData
     (refreshPlot (with_horizontalAxisDimensionIndex 3 examplePlotPage))) =
  [[None; None]; [None; None]; [None]].
Proof. vm_compute. reflexivity. Qed.

(** ** C1: the plot data partition the embedding by cluster *)

(** C1.  With an analysis loaded, [refreshPlot] stores one series per
    distinct cluster identifier, in the order in which the identifiers
    first appear in the embedding.  The series of cluster [k] holds exactly
    the points of cluster [k], with the X and Y values at the two axis
    indices parallel to the attribution indices.  Taken together the series
    hold every point of the embedding once: nothing is dropped and nothing
    is repeated. *)
Theorem refreshPlot_partitions_by_cluster (p : IndexPage) (analysis : Analysis.t) :
  _analysis p = Some analysis →
  ∃ (clusters : list Z) (series : list Series.t),
    graphData (refreshPlot p) = Some series ∧
    Forall2 (showsCluster (Analysis.embedding analysis)
               (_horizontalAxisDimensionIndex p) (_verticalAxisDimensionIndex p))
            clusters series ∧
    NoDup clusters ∧
    (∀ k, k ∈ clusters ↔
          ∃ e, e ∈ Analysis.embedding analysis ∧ Embedding.cluster e = k) ∧
    firstAppearanceOrder clusters (Embedding.cluster <$> Analysis.embedding analysis) ∧
    mjoin ((λ k, filter (λ e, Embedding.cluster e = k) (Analysis.embedding analysis))
             <$> clusters)
      ≡ₚ Analysis.embedding analysis ∧
    mjoin (Series.attributionIndices <$> series)
      ≡ₚ Embedding.attributionIndex <$> Analysis.embedding analysis.
Proof.
  intros Hloaded. unfold refreshPlot, plotData. rewrite Hloaded. simpl.
  set (points := Analysis.embedding analysis).
  set (clusters := distinctClusters (Embedding.cluster <$> points)).
  assert (Hcover : ∀ e, e ∈ points → Embedding.cluster e ∈ clusters).
  { intros e He. apply elem_of_distinctClusters. by apply list_elem_of_fmap_2. }
  assert (Hparts : mjoin ((λ k, filter (λ e, Embedding.cluster e = k) points)
                            <$> clusters) ≡ₚ points).
  { apply mjoin_filter_partition; [apply NoDup_distinctClusters|done]. }
  eexists clusters, _. split_and!.
  - reflexivity.
  - apply Forall2_fmap_r, Forall_Forall2_diag, Forall_forall.
    intros k _. by repeat split.
  - apply NoDup_distinctClusters.
  - intros k. unfold clusters. rewrite elem_of_distinctClusters, list_elem_of_fmap.
    naive_solver.
  - apply distinctClusters_order.
  - exact Hparts.
  - rewrite <-list_fmap_compose. unfold compose. simpl.
    fold (embeddingsInCluster points). unfold embeddingsInCluster.
    rewrite (mjoin_fmap_fmap Embedding.attributionIndex
               (λ k, filter (λ e, Embedding.cluster e = k) points)).
    by rewrite Hparts.
Qed.

Lemma refreshPlot_partitions_by_cluster_witness :
  ∃ series : list Series.t,
    graphData (refreshPlot examplePlotPage) = Some series ∧
    mjoin (Series.attributionIndices <$> series) ≡ₚ [100; 101; 102; 103; 104]%Z.
Proof.
  destruct (refreshPlot_partitions_by_cluster examplePlotPage exampleAnalysis eq_refl)
    as (clusters & series & Hplot & _ & _ & _ & _ & _ & Hunion).
  exists series. split; [exact Hplot|exact Hunion].
Defined.

(** ** What a refresh of the analysis leaves alone *)

Lemma refreshAnalysisAsync_0_cases (p : IndexPage) :
  refreshAnalysisAsync_0 p = (p, Returned) ∨
  let q := with_selectedAttributions None (with_isLoading true p) in
  refreshAnalysisAsync_0 p = (q, Thrown) ∨
  ∃ request, refreshAnalysisAsync_0 p = (issue [request] q, Awaiting request).
Proof.
  unfold refreshAnalysisAsync_0. repeat case_match; simpl; eauto.
Qed.

Lemma selection_refreshAnalysisAsync_0 (p : IndexPage) :
  selection (refreshAnalysisAsync_0 p).1 = selection p.
Proof.
  destruct (refreshAnalysisAsync_0_cases p) as [->|[->|[r ->]]]; reflexivity.
Qed.

Lemma selection_set_selectedCategory value p :
  selection (set_selectedCategory value p) = selection (with_selectedCategory value p).
Proof.
  unfold set_selectedCategory. case_match; [|done].
  apply selection_refreshAnalysisAsync_0.
Qed.

Lemma selection_set_selectedClustering value p :
  selection (set_selectedClustering value p) = selection (with_selectedClustering value p).
Proof.
  unfold set_selectedClustering. case_match; [|done].
  apply selection_refreshAnalysisAsync_0.
Qed.

Lemma selection_set_selectedEmbedding value p :
  selection (set_selectedEmbedding value p) =
  selection (with_verticalAxisDimensionIndex 1
               (with_horizontalAxisDimensionIndex 0 (with_selectedEmbedding value p))).
Proof.
  unfold set_selectedEmbedding. case_match; [|done].
  apply selection_refreshAnalysisAsync_0.
Qed.

(** Reading the fields of a page out of an equation between selections. *)
Ltac selection_fields H :=
  unfold selection in H; simpl in H;
  injection H as Hproject Hmethod Hcategory Hclustering Hembedding
                 Hhorizontal Hvertical Hanalysis Hgraph.

Lemma offersTsne_spec (method : AnalysisMethod.t) :
  offersTsne method = true ↔ "tsne" ∈ AnalysisMethod.embeddings method.
Proof.
  unfold offersTsne. rewrite bool_decide_eq_true.
  generalize (AnalysisMethod.embeddings method). intros l. split.
  - intros Hlen. destruct (filter _ l) as [|e k] eqn:Hkept; [simpl in Hlen; lia|].
    assert (Hin : e ∈ filter (λ embedding, embedding = "tsne") l)
      by (rewrite Hkept; left).
    by apply list_elem_of_filter in Hin as [-> ?].
  - intros Hin.
    assert (Hkept : "tsne" ∈ filter (λ embedding, embedding = "tsne") l)
      by (by apply list_elem_of_filter).
    destruct (filter _ l); [by apply elem_of_nil in Hkept|simpl; lia].
Qed.

(** ** C9: changing an axis only redraws the plot *)

(** C9.  Assigning the horizontal or the vertical axis index sends no
    request: the request history, and with it the number of Analysis
    fetches, stays as it was.  Besides the assigned index the only field
    that changes is [graphData], which is recomputed from the analysis that
    is already loaded (and which stays as it was when none is). *)
Theorem axis_setters_only_redraw (value : nat) (p : IndexPage) :
  (set_horizontalAxisDimensionIndex value p =
     with_graphData
       (match _analysis p with
        | Some analysis => Some (plotData analysis value (_verticalAxisDimensionIndex p))
        | None => graphData p
        end)
       (with_horizontalAxisDimensionIndex value p) ∧
   issued (set_horizontalAxisDimensionIndex value p) = issued p ∧
   analysisFetchCount (set_horizontalAxisDimensionIndex value p) = analysisFetchCount p ∧
   _analysis (set_horizontalAxisDimensionIndex value p) = _analysis p) ∧
  (set_verticalAxisDimensionIndex value p =
     with_graphData
       (match _analysis p with
        | Some analysis => Some (plotData analysis (_horizontalAxisDimensionIndex p) value)
        | None => graphData p
        end)
       (with_verticalAxisDimensionIndex value p) ∧
   issued (set_verticalAxisDimensionIndex value p) = issued p ∧
   analysisFetchCount (set_verticalAxisDimensionIndex value p) = analysisFetchCount p ∧
   _analysis (set_verticalAxisDimensionIndex value p) = _analysis p).
Proof.
  unfold analysisFetchCount.
  unfold set_horizontalAxisDimensionIndex, set_verticalAxisDimensionIndex, refreshPlot.
  simpl. destruct (_analysis p) as [analysis|] eqn:Hloaded; simpl; rewrite ?Hloaded; done.
Qed.

(** ** C8: a new embedding resets the axes before the refetch *)

(** C8.  Whatever value is assigned to [selectedEmbedding], the page ends
    with the axis indices 0 and 1.  The reset comes first: there is a page
    [q] that holds the new embedding and the reset axes and has sent
    nothing yet, and the rest of the setter is the call of
    [refreshAnalysisAsync] on [q] (no call at all for a falsy value).  The
    indices are still 0 and 1 when the fetched analysis arrives, and the
    plot is then drawn along dimensions 0 and 1. *)
Theorem set_selectedEmbedding_resets_axes (value : option string) (p : IndexPage) :
  let p' := set_selectedEmbedding value p in
  _selectedEmbedding p' = value ∧
  _horizontalAxisDimensionIndex p' = 0 ∧
  _verticalAxisDimensionIndex p' = 1 ∧
  (∃ q, _selectedEmbedding q = value ∧
        _horizontalAxisDimensionIndex q = 0 ∧ _verticalAxisDimensionIndex q = 1 ∧
        issued q = issued p ∧
        p' = if truthy_string value then (refreshAnalysisAsync_0 q).1 else q) ∧
  (∀ sent, let p'' := refreshAnalysisAsync_1 sent p' in
           _horizontalAxisDimensionIndex p'' = 0 ∧
           _verticalAxisDimensionIndex p'' = 1 ∧
           graphData p'' = Some (plotData sent 0 1)).
Proof.
  intros p'.
  pose proof (selection_set_selectedEmbedding value p) as Hsel.
  selection_fields Hsel. fold p' in Hembedding, Hhorizontal, Hvertical.
  split_and!; try done.
  - eexists. split_and!; [..|reflexivity]; reflexivity.
  - intros sent. unfold refreshAnalysisAsync_1, set_analysis, refreshPlot. simpl.
    by rewrite Hhorizontal, Hvertical.
Qed.

(** ** C3: the cascade of a new analysis method *)

Lemma selection_initialEmbedding method p :
  selection (if offersTsne method
             then set_selectedEmbedding (Some "tsne") p
             else set_selectedEmbedding (head (AnalysisMethod.embeddings method)) p) =
  selection (with_verticalAxisDimensionIndex 1
               (with_horizontalAxisDimensionIndex 0
                  (with_selectedEmbedding (initialEmbedding method) p))).
Proof.
  unfold initialEmbedding. destruct (offersTsne method);
    apply selection_set_selectedEmbedding.
Qed.

Lemma selection_set_selectedAnalysisMethod method p :
  selection (set_selectedAnalysisMethod (Some method) p) =
  (project p, Some method, head (AnalysisMethod.categories method),
   head (AnalysisMethod.clusterings method), initialEmbedding method, 0, 1,
   _analysis p, graphData p).
Proof.
  unfold set_selectedAnalysisMethod.
  rewrite selection_refreshAnalysisAsync_0, selection_initialEmbedding.
  set (p1 := with_selectedAnalysisMethod (Some method) p).
  set (p2 := set_selectedCategory _ p1).
  set (p3 := set_selectedClustering _ p2).
  pose proof (selection_set_selectedClustering
                (head (AnalysisMethod.clusterings method)) p2) as H3.
  pose proof (selection_set_selectedCategory
                (head (AnalysisMethod.categories method)) p1) as H2.
  fold p3 in H3. fold p2 in H2.
  unfold selection in *. simpl in *.
  injection H3 as -> -> -> -> _ _ _ -> ->. injection H2 as -> -> -> _ _ _ _ -> ->.
  reflexivity.
Qed.

(** C3.  Assigning a method to [selectedAnalysisMethod] leaves the page
    with the method's first category, its first clustering, and the
    embedding ['tsne'] when the method offers it and its first embedding
    otherwise.  Assigning no method changes that one field and nothing
    else, and sends nothing.  When a project is loaded whose first method
    offers ['tsne'] and has a first category and a non-empty first
    clustering, the page ends with the embedding ['tsne'], and the Analysis
    fetch that the load awaits, the last request sent, asks for
    [embedding=tsne]. *)
Theorem set_selectedAnalysisMethod_cascade (p : IndexPage) :
  (∀ method, let p' := set_selectedAnalysisMethod (Some method) p in
     _selectedAnalysisMethod p' = Some method ∧
     _selectedCategory p' = head (AnalysisMethod.categories method) ∧
     _selectedClustering p' = head (AnalysisMethod.clusterings method) ∧
     _selectedEmbedding p' =
       if decide ("tsne" ∈ AnalysisMethod.embeddings method) then Some "tsne"
       else head (AnalysisMethod.embeddings method)) ∧
  set_selectedAnalysisMethod None p = with_selectedAnalysisMethod None p ∧
  issued (set_selectedAnalysisMethod None p) = issued p ∧
  (∀ sent method category clustering,
     head (Project.analysisMethods sent) = Some method →
     head (AnalysisMethod.categories method) = Some category →
     head (AnalysisMethod.clusterings method) = Some clustering →
     clustering ≠ "" →
     "tsne" ∈ AnalysisMethod.embeddings method →
     let request :=
       GetAnalysis (Project.id sent) (AnalysisMethod.name method)
         (AnalysisCategory.name category) clustering "tsne" in
     ∃ p', refreshProjectAsync_1 sent p = (p', Awaiting (Some request)) ∧
           _selectedEmbedding p' = Some "tsne" ∧
           last (issued p') = Some request).
Proof.
  split_and!.
  - intros method p'.
    pose proof (selection_set_selectedAnalysisMethod method p) as Hsel.
    change (set_selectedAnalysisMethod (Some method) p) with p' in Hsel.
    clearbody p'. selection_fields Hsel.
    split_and!; try done.
    rewrite Hembedding. unfold initialEmbedding.
    destruct (offersTsne method) eqn:Htsne.
    + apply offersTsne_spec in Htsne. by rewrite decide_True.
    + rewrite decide_False; [done|]. rewrite <-offersTsne_spec. congruence.
  - reflexivity.
  - reflexivity.
  - intros sent method category clustering Hfirst Hcat Hclu Hnonempty Htsne request.
    apply offersTsne_spec in Htsne.
    unfold refreshProjectAsync_1. rewrite Hfirst.
    set (q0 := with_selectedAttributions None (with_project (Some sent) p)).
    pose proof (selection_set_selectedAnalysisMethod method q0) as Hsel.
    set (q1 := set_selectedAnalysisMethod (Some method) q0) in *.
    clearbody q1. selection_fields Hsel. rewrite Hmethod, Htsne, Hcat, Hclu.
    set (q2 := set_selectedCategory (Some category) q1).
    set (q3 := set_selectedClustering (Some clustering) q2).
    set (q4 := set_selectedEmbedding (Some "tsne") q3).
    pose proof (selection_set_selectedEmbedding (Some "tsne") q3) as H4.
    pose proof (selection_set_selectedClustering (Some clustering) q2) as H3.
    pose proof (selection_set_selectedCategory (Some category) q1) as H2.
    fold q4 in H4. fold q3 in H3. fold q2 in H2.
    unfold selection in H2, H3, H4. simpl in H2, H3, H4.
    injection H4 as Hp4 Hm4 Hc4 Hk4 He4 _ _ _ _.
    injection H3 as Hp3 Hm3 Hc3 Hk3 _ _ _ _ _.
    injection H2 as Hp2 Hm2 Hc2 _ _ _ _ _ _.
    unfold refreshAnalysisAsync_0.
    rewrite Hm4, Hm3, Hm2, Hmethod, Hc4, Hc3, Hc2, Hk4, Hk3, He4. simpl.
    rewrite (bool_decide_eq_false_2 _ Hnonempty). simpl.
    rewrite Hp4, Hp3, Hp2, Hproject. simpl.
    eexists. split_and!; [reflexivity|..].
    + simpl. exact He4.
    + simpl. apply last_snoc.
Qed.

Lemma set_selectedAnalysisMethod_cascade_witness :
  ∃ p', refreshProjectAsync_1 lrpProject loadingPage = (p', Awaiting (Some lrpRequest)) ∧
        _selectedEmbedding p' = Some "tsne" ∧
        last (issued p') = Some lrpRequest.
Proof.
  destruct (set_selectedAnalysisMethod_cascade loadingPage) as (_ & _ & _ & Hload).
  apply (Hload lrpProject lrp
           {| AnalysisCategory.name := "cat-1";
              AnalysisCategory.humanReadableName := "Category 1" |}
           "kmeans-5"); [reflexivity|reflexivity|reflexivity|discriminate|].
  apply list_elem_of_here.
Defined.

(** The whole request history of that load.  On a fresh page the category
    and the clustering setters of the first cascade are stopped by the
    guard of [refreshAnalysisAsync]; the six calls that follow each send
    the same Analysis request. *)
Example load_scenario_history :
  issued (refreshProjectAsync_1 lrpProject loadingPage).1 =
  [GetProjectById (Some (JsNum.Int 1)); GetColorMaps;
   lrpRequest; lrpRequest; lrpRequest; lrpRequest; lrpRequest; lrpRequest].
Proof. vm_compute. reflexivity. Qed.

Example load_scenario_url :
  request_url lrpRequest =
  "http://localhost:8080/api/projects/1/analyses/lrp?category=cat-1&clustering=kmeans-5&embedding=tsne".
Proof. vm_compute. reflexivity. Qed.

(** A method without [tsne] starts with its first embedding. *)
Example cascade_without_tsne :
  _selectedEmbedding
    (set_selectedAnalysisMethod
       (Some {| AnalysisMethod.name := "lrp"; AnalysisMethod.categories := [];
                AnalysisMethod.clusterings := ["kmeans-5"];
                AnalysisMethod.embeddings := ["umap"; "pca"] |})
       IndexPage_new) = Some "umap".
Proof. vm_compute. reflexivity. Qed.

(** ** C10: the color map the page starts with *)

Section first_match.
Context {A : Type} (P : A → Prop) `{!∀ x, Decision (P x)}.

Lemma head_filter_first (l : list A) (i : nat) (x : A) :
  l !! i = Some x → P x → (∀ j y, j < i → l !! j = Some y → ¬ P y) →
  head (filter P l) = Some x.
Proof.
  revert i. induction l as [|y l IH]; intros i Hi Hx Hbefore; [done|].
  destruct i as [|i]; simplify_eq/=.
  - by rewrite filter_cons_True.
  - rewrite filter_cons_False by (apply (Hbefore 0); [lia|done]).
    apply (IH i); [done..|]. intros j z Hj Hz. apply (Hbefore (S j)); [lia|done].
Qed.

Lemma filter_none (l : list A) : (∀ x, x ∈ l → ¬ P x) → filter P l = [].
Proof.
  induction l as [|y l IH]; intros Hnone; [done|].
  rewrite filter_cons_False by (apply Hnone; left).
  apply IH. intros x Hx. apply Hnone. by right.
Qed.
End first_match.

(** C10.  When the color maps arrive, the page keeps the list and selects
    the first color map named ["black-fire-red"], if the list has one.  If
    it has none, the first color map of the list is selected; for an empty
    list nothing is selected, and nothing throws. *)
Theorem ngOnInit_selects_default_color_map (sent : list ColorMap.t) (p : IndexPage) :
  let p' := ngOnInit_1 sent p in
  colorMaps p' = Some sent ∧
  (∀ i colorMap,
     sent !! i = Some colorMap →
     ColorMap.name colorMap = "black-fire-red" →
     (∀ j earlier, j < i → sent !! j = Some earlier →
                   ColorMap.name earlier ≠ "black-fire-red") →
     selectedColorMap p' = Some colorMap) ∧
  ((∀ colorMap, colorMap ∈ sent → ColorMap.name colorMap ≠ "black-fire-red") →
   selectedColorMap p' = head sent) ∧
  (sent = [] → selectedColorMap p' = None).
Proof.
  intros p'. unfold p', ngOnInit_1. split_and!.
  - by case_bool_decide.
  - intros i colorMap Hi Hname Hbefore.
    rewrite (head_filter_first _ sent i colorMap Hi Hname Hbefore).
    case_bool_decide as Hlen; [done|].
    assert (Hin : colorMap ∈ filter (λ c, ColorMap.name c = "black-fire-red") sent).
    { apply list_elem_of_filter. split; [done|]. by apply list_elem_of_lookup_2 in Hi. }
    destruct (filter _ sent); [by apply elem_of_nil in Hin|simpl in Hlen; lia].
  - intros Hnone. rewrite (filter_none _ sent Hnone).
    case_bool_decide as Hlen; [simpl in Hlen; lia|done].
  - intros ->. reflexivity.
Qed.

Lemma ngOnInit_selects_default_color_map_witness :
  selectedColorMap
    (ngOnInit_1 [colorMap "gray"; colorMap "black-fire-red"; colorMap "jet"] loadingPage)
  = Some (colorMap "black-fire-red") ∧
  selectedColorMap (ngOnInit_1 [colorMap "gray"; colorMap "jet"] loadingPage)
  = Some (colorMap "gray").
Proof.
  split.
  - destruct (ngOnInit_selects_default_color_map
                [colorMap "gray"; colorMap "black-fire-red"; colorMap "jet"] loadingPage)
      as (_ & Hfirst & _ & _).
    apply (Hfirst 1); [reflexivity|reflexivity|].
    intros j earlier Hj Hearlier. destruct j as [|j]; [|lia].
    injection Hearlier as <-. discriminate.
  - destruct (ngOnInit_selects_default_color_map
                [colorMap "gray"; colorMap "jet"] loadingPage)
      as (_ & _ & Hnone & _).
    apply Hnone. intros c Hc.
    apply elem_of_cons in Hc as [->|Hc]; [discriminate|].
    apply list_elem_of_singleton in Hc as ->. discriminate.
Defined.

(** ** Runs of [onSelectedAsync] *)

Lemma attributionBatch_take loaded eventInfo :
  (λ index, (Project.id loaded, index))
    <$> take 20 (resolvePoint <$> EventInfo.points eventInfo)
  = attributionBatch loaded eventInfo.
Proof.
  unfold attributionBatch. by rewrite <-fmap_take, <-list_fmap_compose.
Qed.

Lemma onSelectedAsync_answered B eventInfo p loaded attributions samples :
  project p = Some loaded →
  Promise_all (AttributionsService.getAsync B) (attributionBatch loaded eventInfo)
    = Some attributions →
  Promise_all (DatasetService.getAsync B) (sampleBatch loaded attributions)
    = Some samples →
  onSelectedAsync B (Some eventInfo) p
    = (selectedPage loaded eventInfo attributions samples p, Fulfilled).
Proof.
  intros Hproject Hattributions Hsamples.
  unfold onSelectedAsync, onSelectedAsync_0. simpl. rewrite Hproject.
  rewrite attributionBatch_take. unfold resume at 1. rewrite Hattributions.
  unfold onSelectedAsync_1. simpl. rewrite Hproject.
  unfold resume at 1. fold (sampleBatch loaded attributions). rewrite Hsamples.
  reflexivity.
Qed.

Lemma onSelectedAsync_fulfilled B eventInfo p loaded p' :
  project p = Some loaded →
  onSelectedAsync B (Some eventInfo) p = (p', Fulfilled) →
  ∃ attributions samples,
    Promise_all (AttributionsService.getAsync B) (attributionBatch loaded eventInfo)
      = Some attributions ∧
    Promise_all (DatasetService.getAsync B) (sampleBatch loaded attributions)
      = Some samples ∧
    p' = selectedPage loaded eventInfo attributions samples p.
Proof.
  intros Hproject Hrun.
  destruct (Promise_all (AttributionsService.getAsync B)
              (attributionBatch loaded eventInfo)) as [attributions|] eqn:Hattributions.
  - destruct (Promise_all (DatasetService.getAsync B)
                (sampleBatch loaded attributions)) as [samples|] eqn:Hsamples.
    + rewrite (onSelectedAsync_answered _ _ _ _ _ _ Hproject Hattributions Hsamples)
        in Hrun.
      injection Hrun as <-. by exists attributions, samples.
    + revert Hrun. unfold onSelectedAsync, onSelectedAsync_0. simpl. rewrite Hproject.
      rewrite attributionBatch_take. unfold resume at 1. rewrite Hattributions.
      unfold onSelectedAsync_1. simpl. rewrite Hproject.
      unfold resume at 1. fold (sampleBatch loaded attributions). rewrite Hsamples.
      discriminate.
  - revert Hrun. unfold onSelectedAsync, onSelectedAsync_0. simpl. rewrite Hproject.
    rewrite attributionBatch_take. unfold resume at 1. rewrite Hattributions.
    discriminate.
Qed.

Lemma assignSample_index samples attribution :
  Attribution.index (assignSample samples attribution) = Attribution.index attribution.
Proof. reflexivity. Qed.

Lemma sampleBatch_assignSample loaded samples attributions :
  sampleBatch loaded (assignSample samples <$> attributions)
  = sampleBatch loaded attributions.
Proof. unfold sampleBatch. by rewrite <-list_fmap_compose. Qed.

(** ** C2: a selection is cut to its first 20 points *)

(** The attribution calls and the sample calls of a run are answered
    exactly when, for every call of the attribution batch, the backend
    serves a payload and serves the sample of the index that payload
    carries. *)
Lemma batches_answered (B : Backend) (projectId : Z) (indices : list (option Z)) :
  (∃ attributions samples,
     Promise_all (AttributionsService.getAsync B)
       ((λ index, (projectId, index)) <$> indices) = Some attributions ∧
     Promise_all (DatasetService.getAsync B)
       ((λ attribution, (projectId, Attribution.index attribution)) <$> attributions)
       = Some samples) ↔
  Forall (λ index,
            ∃ payload,
              serveAttribution B projectId index = Some payload ∧
              is_Some (serveSample B projectId (Attribution.json.index payload)))
         indices.
Proof.
  unfold Promise_all. induction indices as [|index indices IH].
  - split; [constructor|]. intros _. by exists [], [].
  - rewrite Forall_cons, <-IH. clear IH. split.
    + intros (attributions & samples & Hattributions & Hsamples).
      rewrite fmap_cons in Hattributions.
      apply mapM_Some_1, Forall2_cons_inv_l in Hattributions
        as (attribution & rest & Hcall & Hrest & ->).
      rewrite fmap_cons in Hsamples.
      apply mapM_Some_1, Forall2_cons_inv_l in Hsamples
        as (sample & others & Hsample & Hothers & ->).
      unfold AttributionsService.getAsync in Hcall. simpl in Hcall.
      apply fmap_Some in Hcall as (payload & Hpayload & ->).
      unfold DatasetService.getAsync in Hsample. simpl in Hsample.
      apply fmap_Some in Hsample as (served & Hserved & _).
      split.
      * exists payload. split; [done|]. by exists served.
      * exists rest, others. split; by apply mapM_Some_2.
    + intros [(payload & Hpayload & [served Hserved])
              (rest & others & Hrest & Hothers)].
      exists (Attribution.new payload environment.apiBaseUrl :: rest),
             (Sample.new served environment.apiBaseUrl :: others).
      split; rewrite fmap_cons; apply mapM_Some_2; constructor;
        try by apply mapM_Some_1.
      * unfold AttributionsService.getAsync. simpl. by rewrite Hpayload.
      * unfold DatasetService.getAsync. simpl. by rewrite Hserved.
Qed.

(** C2.  With a project loaded, [onSelectedAsync] cuts the event to its
    first 20 points before anything is fetched: whatever the backend does,
    the first segment sends the attribution requests of those points, in
    event order, and no other, and these are what it waits for.  The run
    completes exactly when the backend answers these calls and, for each
    answer, the sample call of the index it carries; nothing is asked of
    the backend beyond that.  A completed run leaves one attribution per
    point among the first 20 points of the event, in event order, each
    built from the payload the backend serves for that point: exactly 20
    for every event of more than 20 points, one of 25 included.  Over the
    whole run only the attribution requests of the first 20 points and the
    sample requests of the fetched attributions are sent. *)
Theorem onSelected_keeps_first_20 (B : Backend) (eventInfo : EventInfo.t)
    (p : IndexPage) (loaded : Project.t) :
  project p = Some loaded →
  (∃ p0,
     onSelectedAsync_0 (Some eventInfo) p
       = (p0, Awaiting (attributionBatch loaded eventInfo)) ∧
     length (attributionBatch loaded eventInfo)
       = 20 `min` length (EventInfo.points eventInfo) ∧
     issued p0 =
       issued p ++ ((λ dataPoint, GetAttribution (Project.id loaded) (resolvePoint dataPoint))
                      <$> take 20 (EventInfo.points eventInfo))) ∧
  ((∃ p', onSelectedAsync B (Some eventInfo) p = (p', Fulfilled)) ↔
   Forall (λ dataPoint,
             ∃ payload,
               serveAttribution B (Project.id loaded) (resolvePoint dataPoint)
                 = Some payload ∧
               is_Some (serveSample B (Project.id loaded)
                          (Attribution.json.index payload)))
          (take 20 (EventInfo.points eventInfo))) ∧
  (∀ p', onSelectedAsync B (Some eventInfo) p = (p', Fulfilled) →
     ∃ attributions,
       selectedAttributions p' = Some attributions ∧
       length attributions = 20 `min` length (EventInfo.points eventInfo) ∧
       (20 < length (EventInfo.points eventInfo) → length attributions = 20) ∧
       (length (EventInfo.points eventInfo) = 25 → length attributions = 20) ∧
       Forall2 (λ dataPoint attribution,
                  ∃ payload sample,
                    serveAttribution B (Project.id loaded) (resolvePoint dataPoint)
                      = Some payload ∧
                    attribution =
                      Attribution.with_sample sample
                        (Attribution.new payload environment.apiBaseUrl))
               (take 20 (EventInfo.points eventInfo)) attributions ∧
       issued p' =
         issued p ++ ((λ dataPoint,
                         GetAttribution (Project.id loaded) (resolvePoint dataPoint))
                        <$> take 20 (EventInfo.points eventInfo))
                  ++ ((λ attribution,
                         GetSample (Project.id loaded) (Attribution.index attribution))
                        <$> attributions)).
Proof.
  intros Hproject.
  assert (Hbatch : length (attributionBatch loaded eventInfo)
                   = 20 `min` length (EventInfo.points eventInfo)).
  { unfold attributionBatch. by rewrite length_fmap, length_take. }
  split_and!.
  - unfold onSelectedAsync_0. simpl. rewrite Hproject. simpl.
    rewrite attributionBatch_take. eexists. split_and!; [reflexivity|exact Hbatch|].
    simpl. unfold attributionBatch. by rewrite <-list_fmap_compose.
  - pose proof (batches_answered B (Project.id loaded)
                  (resolvePoint <$> take 20 (EventInfo.points eventInfo))) as Hiff.
    rewrite Forall_fmap, <-list_fmap_compose in Hiff.
    fold (attributionBatch loaded eventInfo) in Hiff.
    rewrite <-Hiff. clear Hiff. split.
    + intros [p' Hrun].
      destruct (onSelectedAsync_fulfilled _ _ _ _ _ Hproject Hrun)
        as (attributions & samples & Hattributions & Hsamples & _).
      by exists attributions, samples.
    + intros (attributions & samples & Hattributions & Hsamples).
      eexists. by apply (onSelectedAsync_answered B eventInfo p loaded attributions samples).
  - intros p' Hrun.
    destruct (onSelectedAsync_fulfilled _ _ _ _ _ Hproject Hrun)
      as (attributions & samples & Hattributions & Hsamples & ->).
    exists (assignSample samples <$> attributions).
    assert (Hlen : length (assignSample samples <$> attributions)
                   = 20 `min` length (EventInfo.points eventInfo)).
    { rewrite length_fmap. apply length_mapM in Hattributions.
      by rewrite <-Hattributions. }
    split_and!.
    + reflexivity.
    + exact Hlen.
    + intros Hmore. rewrite Hlen. lia.
    + intros H25. rewrite Hlen, H25. reflexivity.
    + apply mapM_Some_1 in Hattributions. unfold attributionBatch in Hattributions.
      apply Forall2_fmap_l in Hattributions. apply Forall2_fmap_r.
      eapply Forall2_impl; [exact Hattributions|].
      intros dataPoint attribution Hcall.
      unfold AttributionsService.getAsync in Hcall. simpl in Hcall.
      apply fmap_Some in Hcall as (payload & Hpayload & ->).
      by exists payload,
                (head (filter (λ sample, Sample.index sample
                                         = Attribution.json.index payload) samples)).
    + simpl. unfold attributionBatch, sampleBatch.
      rewrite <-!list_fmap_compose, <-app_assoc. reflexivity.
Qed.

(** ** C7: attributions are joined with their samples by index *)

(** C7.  In a completed run with a project loaded, every attribution the
    page ends with carries either one of the fetched samples, and then that
    sample has the index of the attribution, or no sample, and then no
    fetched sample has the index of the attribution.  The joining segment
    itself never throws once the attributions are stored: whatever samples
    it receives, it returns, and it clears the loading flag. *)
Theorem onSelected_joins_samples_by_index (B : Backend) (eventInfo : EventInfo.t)
    (p p' : IndexPage) (loaded : Project.t) :
  project p = Some loaded →
  onSelectedAsync B (Some eventInfo) p = (p', Fulfilled) →
  (∃ attributions samples,
     selectedAttributions p' = Some attributions ∧
     Promise_all (DatasetService.getAsync B) (sampleBatch loaded attributions)
       = Some samples ∧
     Forall (λ attribution,
               match Attribution.sample attribution with
               | Some sample =>
                   sample ∈ samples ∧
                   Sample.index sample = Attribution.index attribution
               | None =>
                   ∀ sample, sample ∈ samples →
                             Sample.index sample ≠ Attribution.index attribution
               end)
            attributions) ∧
  (∀ (sent : list Sample.t) (q : IndexPage) (stored : list Attribution.t),
     selectedAttributions q = Some stored →
     ∃ q', onSelectedAsync_2 sent q = (q', Returned) ∧
           isLoadingSelection q' = false ∧
           selectedAttributions q' = Some (assignSample sent <$> stored)).
Proof.
  intros Hproject Hrun. split.
  - destruct (onSelectedAsync_fulfilled _ _ _ _ _ Hproject Hrun)
      as (attributions & samples & _ & Hsamples & ->).
    exists (assignSample samples <$> attributions), samples. split_and!.
    + reflexivity.
    + by rewrite sampleBatch_assignSample.
    + apply Forall_fmap, Forall_forall. intros attribution _. simpl.
      destruct (head (filter _ samples)) as [sample|] eqn:Hhead.
      * apply head_Some_elem_of, list_elem_of_filter in Hhead as [? ?]. done.
      * apply head_None in Hhead. intros sample Hin Hindex.
        by apply (filter_nil_not_elem_of _ _ sample Hhead Hindex).
  - intros sent q stored Hstored. unfold onSelectedAsync_2. rewrite Hstored.
    by eexists.
Qed.

(** ** C6: one sample fetch per fetched attribution *)

(** C6, as amended.  The second segment of [onSelectedAsync] starts from
    the resolved attributions and sends one sample request per attribution
    of that list, in the order of the list, with the index of that
    attribution; an index that several attributions share is requested
    once for each of them.  In a completed run the history grows by the
    attribution requests followed by these sample requests. *)
Theorem onSelected_one_sample_fetch_per_attribution (B : Backend)
    (eventInfo : EventInfo.t) (p : IndexPage) (loaded : Project.t) :
  project p = Some loaded →
  (∀ sent : list Attribution.t,
     ∃ p1, onSelectedAsync_1 sent p = (p1, Awaiting (sampleBatch loaded sent)) ∧
           selectedAttributions p1 = Some sent ∧
           issued p1 =
             issued p ++ ((λ attribution,
                             GetSample (Project.id loaded) (Attribution.index attribution))
                            <$> sent)) ∧
  (∀ p', onSelectedAsync B (Some eventInfo) p = (p', Fulfilled) →
     ∃ attributions,
       Promise_all (AttributionsService.getAsync B) (attributionBatch loaded eventInfo)
         = Some attributions ∧
       issued p' =
         issued p ++ (AttributionsService.request <$> attributionBatch loaded eventInfo)
                  ++ ((λ attribution,
                         GetSample (Project.id loaded) (Attribution.index attribution))
                        <$> attributions)).
Proof.
  intros Hproject. split.
  - intros sent. unfold onSelectedAsync_1. simpl. rewrite Hproject.
    eexists. split_and!; [reflexivity|reflexivity|].
    simpl. by rewrite <-list_fmap_compose.
  - intros p' Hrun.
    destruct (onSelectedAsync_fulfilled _ _ _ _ _ Hproject Hrun)
      as (attributions & samples & Hattributions & _ & ->).
    exists attributions. split; [done|]. simpl. unfold sampleBatch.
    by rewrite <-list_fmap_compose, <-app_assoc.
Qed.

(** ** Selections run against a backend *)

Example selection25_keeps_100_to_119 :
  Attribution.index
    <$> default [] (selectedAttributions
                      (onSelectedAsync echoBackend (Some selection25) projectPage).1)
  = seqZ 100 20.
Proof. vm_compute. reflexivity. Qed.

Example twinSelection_joined :
  (λ a, Sample.index <$> Attribution.sample a)
    <$> default [] (selectedAttributions selectedOnce)
  = [Some 7; Some 7]%Z.
Proof. vm_compute. reflexivity. Qed.

(** When no fetched sample has the index of an attribution, its [sample]
    stays unassigned and the run still completes. *)
Example shifted_samples_leave_sample_unset :
  let run := onSelectedAsync shiftedBackend (Some twinSelection) projectPage in
  run.2 = Fulfilled ∧
  Attribution.sample <$> default [] (selectedAttributions run.1) = [None; None].
Proof. vm_compute. done. Qed.

Lemma onSelected_keeps_first_20_witness :
  ∃ p' attributions,
    onSelectedAsync finiteBackend (Some selection25) projectPage = (p', Fulfilled) ∧
    selectedAttributions p' = Some attributions ∧
    length attributions = 20.
Proof.
  destruct (onSelected_keeps_first_20 finiteBackend selection25 projectPage lrpProject
              eq_refl) as (_ & _ & Hcompleted).
  set (run := onSelectedAsync finiteBackend (Some selection25) projectPage).
  assert (Hrun : run = (run.1, Fulfilled)).
  { apply injective_projections; [reflexivity|]. vm_compute. reflexivity. }
  destruct (Hcompleted run.1 Hrun) as (attributions & Hselected & _ & _ & H25 & _).
  exists run.1, attributions. split_and!; [exact Hrun|exact Hselected|].
  apply H25. reflexivity.
Defined.

Lemma onSelected_joins_samples_by_index_witness :
  ∃ attributions samples,
    selectedAttributions selectedOnce = Some attributions ∧
    Promise_all (DatasetService.getAsync echoBackend) (sampleBatch lrpProject attributions)
      = Some samples ∧
    Forall (λ attribution,
              match Attribution.sample attribution with
              | Some sample =>
                  sample ∈ samples ∧
                  Sample.index sample = Attribution.index attribution
              | None =>
                  ∀ sample, sample ∈ samples →
                            Sample.index sample ≠ Attribution.index attribution
              end)
           attributions.
Proof.
  apply (onSelected_joins_samples_by_index echoBackend twinSelection projectPage
           selectedOnce lrpProject); [reflexivity|].
  apply injective_projections; [reflexivity|]. vm_compute. reflexivity.
Defined.

Lemma onSelected_one_sample_fetch_per_attribution_witness :
  ∃ p1,
    onSelectedAsync_1 [Attribution.new (attributionPayload 7) environment.apiBaseUrl;
                       Attribution.new (attributionPayload 7) environment.apiBaseUrl]
                      projectPage
      = (p1, Awaiting [(1, 7); (1, 7)]%Z) ∧
    issued p1 = [GetSample 1 7; GetSample 1 7].
Proof.
  destruct (onSelected_one_sample_fetch_per_attribution echoBackend twinSelection
              projectPage lrpProject eq_refl) as [Hsegment _].
  destruct (Hsegment [Attribution.new (attributionPayload 7) environment.apiBaseUrl;
                      Attribution.new (attributionPayload 7) environment.apiBaseUrl])
    as (p1 & Hstep & _ & Hissued).
  exists p1. split; [exact Hstep|exact Hissued].
Defined.

(** C6, as claimed, fails: two selected points with the same attribution
    index make the second phase fetch the sample of that index twice,
    although the resolved attributions have a single distinct index. *)
Lemma onSelected_repeats_sample_fetch :
  sampleFetches selectedOnce = [GetSample 1 7; GetSample 1 7] ∧
  remove_dups (Attribution.index <$> default [] (selectedAttributions selectedOnce))
    = [7%Z] ∧
  ¬ NoDup (sampleFetches selectedOnce).
Proof.
  assert (Hfetches : sampleFetches selectedOnce = [GetSample 1 7; GetSample 1 7])
    by (vm_compute; reflexivity).
  split_and!; [exact Hfetches|vm_compute; reflexivity|].
  rewrite Hfetches. intros [Hfresh _]%NoDup_cons. apply Hfresh. left.
Qed.

(** ** C5: an absent event, and an event without points *)

(** C5, as claimed, fails for an event without points: handled after a
    selection, it replaces the two selected attributions by the empty
    list. *)
Lemma onSelected_empty_event_clears_selection :
  let p' := (onSelectedAsync echoBackend (Some emptySelection) selectedOnce).1 in
  ¬ (selectedAttributions p' = selectedAttributions selectedOnce ∧
     isLoadingSelection p' = isLoadingSelection selectedOnce ∧
     issued p' = issued selectedOnce).
Proof.
  intros p' [Hselected _].
  apply (f_equal (λ attributions, length (default [] attributions))) in Hselected.
  vm_compute in Hselected. discriminate.
Qed.

(** C5, as amended.  For an absent event [onSelectedAsync] returns at once
    and the page is untouched.  For an event without points the run
    completes without sending any request and leaves the selection of the
    page as it was, but it stores the empty list in [selectedAttributions]
    and ends with [isLoadingSelection] false. *)
Theorem onSelected_absent_or_empty (B : Backend) (p : IndexPage) :
  onSelectedAsync B None p = (p, Fulfilled) ∧
  let run := onSelectedAsync B (Some {| EventInfo.points := [] |}) p in
  run.2 = Fulfilled ∧
  issued run.1 = issued p ∧
  selection run.1 = selection p ∧
  selectedAttributions run.1 = Some [] ∧
  isLoadingSelection run.1 = false.
Proof.
  split; [reflexivity|].
  unfold onSelectedAsync, onSelectedAsync_0. simpl.
  destruct (project p) as [loaded|] eqn:Hproject; simpl;
    unfold onSelectedAsync_1; simpl; rewrite Hproject; simpl;
    rewrite ?app_nil_r; done.
Qed.

(** ** C4: URLs are prefixed once *)

Section strings.
Implicit Types s t u : string.

Lemma string_app_length s t :
  String.length (s +:+ t) = String.length s + String.length t.
Proof. induction s as [|c s IH]; simpl; [done|]. by rewrite IH. Qed.

Lemma string_app_inv_head s t u : s +:+ t = s +:+ u → t = u.
Proof.
  induction s as [|c s IH]; simpl; [done|]. intros Heq. injection Heq as Heq. auto.
Qed.

Lemma prefixed_once_not_twice (baseUrl url : string) :
  baseUrl ≠ "" → baseUrl +:+ url ≠ baseUrl +:+ baseUrl +:+ url.
Proof.
  intros Hbase Heq. apply string_app_inv_head in Heq.
  apply (f_equal String.length) in Heq. rewrite string_app_length in Heq.
  destruct baseUrl; [done|]. simpl in Heq. lia.
Qed.
End strings.

Lemma prefixUrl_app (baseUrl url : string) : prefixUrl baseUrl url = baseUrl +:+ url.
Proof.
  unfold prefixUrl, truthy_string. case_bool_decide as Hbase; [|done].
  by rewrite Hbase.
Qed.

Lemma prefixUrls_lookup (baseUrl : string) (urls : gmap string string) (key : string) :
  Attribution.prefixUrls baseUrl urls !! key = (λ u, baseUrl +:+ u) <$> urls !! key.
Proof.
  unfold Attribution.prefixUrls, truthy_string. case_bool_decide as Hbase; simpl.
  - rewrite Hbase. by destruct (urls !! key).
  - by rewrite lookup_fmap.
Qed.

Lemma apiBaseUrl_nonempty : environment.apiBaseUrl ≠ "".
Proof. discriminate. Qed.

(** X15.  The constructor writes the prefixed URLs into the map of the payload
    itself.  Two entities built from one payload object would therefore
    carry the prefix twice; every fetch parses a payload of its own, so
    this does not happen within a fetch. *)
Lemma Attribution_new_twice_prefixes_twice (payload : Attribution.json.t)
    (baseUrl key : string) :
  Attribution.urls
    (Attribution.new (Attribution.payload_after_new payload baseUrl) baseUrl) !! key
  = (λ u, baseUrl +:+ baseUrl +:+ u) <$> Attribution.json.urls payload !! key.
Proof.
  simpl. rewrite !prefixUrls_lookup. by destruct (Attribution.json.urls payload !! key).
Qed.

(** C4.  Whatever the backend serves, every URL of a fetched sample,
    attribution or color map is the configured base URL followed by the
    URL of the payload, and it is not the base URL twice followed by the
    URL of the payload.  For an attribution this holds for [url] and, key
    by key, for the map [urls], which has an entry exactly where the
    payload has one. *)
Theorem fetched_urls_prefixed_once (B : Backend) :
  (∀ call sample,
     DatasetService.getAsync B call = Some sample →
     ∃ payload,
       serveSample B call.1 call.2 = Some payload ∧
       Sample.url sample = environment.apiBaseUrl +:+ Sample.json.url payload ∧
       Sample.url sample
         ≠ environment.apiBaseUrl +:+ environment.apiBaseUrl +:+ Sample.json.url payload) ∧
  (∀ call attribution,
     AttributionsService.getAsync B call = Some attribution →
     ∃ payload,
       serveAttribution B call.1 call.2 = Some payload ∧
       Attribution.url attribution
         = environment.apiBaseUrl +:+ Attribution.json.url payload ∧
       Attribution.url attribution
         ≠ environment.apiBaseUrl +:+ environment.apiBaseUrl
             +:+ Attribution.json.url payload ∧
       ∀ colorMap,
         Attribution.urls attribution !! colorMap
           = (λ url, environment.apiBaseUrl +:+ url)
               <$> Attribution.json.urls payload !! colorMap ∧
         ∀ url, Attribution.json.urls payload !! colorMap = Some url →
                Attribution.urls attribution !! colorMap
                  ≠ Some (environment.apiBaseUrl +:+ environment.apiBaseUrl +:+ url)) ∧
  (∀ colorMaps,
     ColorMapsService.getAsync B = Some colorMaps →
     ∃ payloads,
       serveColorMaps B = Some payloads ∧
       Forall2 (λ payload colorMap,
                  ColorMap.url colorMap
                    = environment.apiBaseUrl +:+ ColorMap.json.url payload ∧
                  ColorMap.url colorMap
                    ≠ environment.apiBaseUrl +:+ environment.apiBaseUrl
                        +:+ ColorMap.json.url payload)
               payloads colorMaps).
Proof.
  pose proof apiBaseUrl_nonempty as Hbase. split_and!.
  - intros call sample Hcall. unfold DatasetService.getAsync in Hcall.
    apply fmap_Some in Hcall as (payload & Hpayload & ->).
    exists payload. split_and!; [done|..]; simpl; rewrite prefixUrl_app;
      [done|by apply prefixed_once_not_twice].
  - intros call attribution Hcall. unfold AttributionsService.getAsync in Hcall.
    apply fmap_Some in Hcall as (payload & Hpayload & ->).
    exists payload. split_and!; [done|..].
    + simpl. by rewrite prefixUrl_app.
    + simpl. rewrite prefixUrl_app. by apply prefixed_once_not_twice.
    + intros colorMap. simpl. rewrite prefixUrls_lookup. split; [done|].
      intros url ->. intros Heq%(inj Some). by apply prefixed_once_not_twice in Heq.
  - intros colorMaps Hcall. unfold ColorMapsService.getAsync in Hcall.
    apply fmap_Some in Hcall as (payloads & Hpayloads & ->).
    exists payloads. split; [done|].
    apply Forall2_fmap_r, Forall_Forall2_diag, Forall_forall. intros payload _.
    simpl. rewrite prefixUrl_app. split; [done|by apply prefixed_once_not_twice].
Qed.

Lemma fetched_urls_prefixed_once_witness :
  ∃ payload,
    serveSample echoBackend 1 7 = Some payload ∧
    Sample.url (Sample.new (samplePayload 7) environment.apiBaseUrl)
      = environment.apiBaseUrl +:+ Sample.json.url payload ∧
    Sample.url (Sample.new (samplePayload 7) environment.apiBaseUrl)
      ≠ environment.apiBaseUrl +:+ environment.apiBaseUrl +:+ Sample.json.url payload.
Proof.
  destruct (fetched_urls_prefixed_once echoBackend) as (Hsample & _ & _).
  apply (Hsample (1, 7)%Z (Sample.new (samplePayload 7) environment.apiBaseUrl)).
  reflexivity.
Defined.

Example fetched_sample_url :
  Sample.url <$> DatasetService.getAsync echoBackend (1, 7)%Z
  = Some "http://localhost:8080/api/projects/1/dataset/7/image".
Proof. vm_compute. reflexivity. Qed.

Example fetched_attribution_urls :
  (λ a, Attribution.urls a !! "gray") <$> AttributionsService.getAsync echoBackend (1%Z, Some 7%Z)
  = Some (Some "http://localhost:8080/api/projects/1/attributions/7/heatmap?colorMap=gray").
Proof. vm_compute. reflexivity. Qed.

(** * Further properties of the index page *)

(** ** From a plotted point back to its embedding point *)

(** X1.  Every position of a series of the stored plot stands for a point of
    the loaded analysis: the attribution index a hover or a selection
    resolves that position to, the two plotted coordinates and the cluster
    the series is named after all belong to one and the same embedding
    point.  A position past the end of the series resolves to
    [undefined]. *)
Theorem plotted_position_resolves_to_its_point (p : IndexPage) (analysis : Analysis.t)
    (series : list Series.t) (s : Series.t) (i : nat) :
  _analysis p = Some analysis →
  graphData (refreshPlot p) = Some series →
  s ∈ series →
  let dataPoint := {| DataPoint.data := s; DataPoint.pointIndex := i |} in
  (i < length (Series.attributionIndices s) →
   ∃ e, e ∈ Analysis.embedding analysis ∧
        resolvePoint dataPoint = Some (Embedding.attributionIndex e) ∧
        Series.x s !! i = Some (Embedding.value e !! _horizontalAxisDimensionIndex p) ∧
        Series.y s !! i = Some (Embedding.value e !! _verticalAxisDimensionIndex p) ∧
        Series.name s = "Cluster " +:+ js_integer (Embedding.cluster e)) ∧
  (length (Series.attributionIndices s) ≤ i → resolvePoint dataPoint = None).
Proof.
  intros Hloaded Hplot Hs dataPoint. unfold refreshPlot in Hplot.
  rewrite Hloaded in Hplot. simpl in Hplot. injection Hplot as <-.
  unfold plotData in Hs. apply list_elem_of_fmap in Hs as (k & -> & _).
  unfold resolvePoint. simpl. split.
  - rewrite length_fmap. intros Hi.
    destruct (lookup_lt_is_Some_2 _ _ Hi) as [e He].
    pose proof (list_elem_of_lookup_2 _ _ _ He) as Hin.
    apply list_elem_of_filter in Hin as [Hk Hin].
    exists e. rewrite !list_lookup_fmap, He. simpl. by rewrite Hk.
  - intros Hi. by apply lookup_ge_None_2.
Qed.

Lemma plotted_position_resolves_to_its_point_witness :
  ∃ s e, s ∈ plotData exampleAnalysis 0 2 ∧
         e ∈ Analysis.embedding exampleAnalysis ∧
         resolvePoint {| DataPoint.data := s; DataPoint.pointIndex := 1 |}
           = Some (Embedding.attributionIndex e) ∧
         Series.name s = "Cluster " +:+ js_integer (Embedding.cluster e).
Proof.
  set (s := clusterSeries (Analysis.embedding exampleAnalysis) 0 2 7).
  assert (Hs : s ∈ plotData exampleAnalysis 0 2) by (vm_compute; left).
  destruct (plotted_position_resolves_to_its_point examplePlotPage exampleAnalysis
              (plotData exampleAnalysis 0 2) s 1 eq_refl eq_refl Hs) as [Hin _].
  assert (Hlt : 1 < length (Series.attributionIndices s)) by (vm_compute; constructor).
  destruct (Hin Hlt) as (e & He & Hresolve & _ & _ & Hname).
  exists s, e. by split_and!.
Defined.

(** ** The axes a page offers *)

(** X2.  When the points of the loaded analysis all have [n] coordinates, the
    page offers the axes 0 to [n - 1].  A plot along an offered axis has a
    value at every position; along any other axis every value is
    [undefined]. *)
Theorem offered_axes_are_defined (p : IndexPage) (analysis : Analysis.t) (n : nat) :
  _analysis p = Some analysis →
  Analysis.embedding analysis ≠ [] →
  Forall (λ e, length (Embedding.value e) = n) (Analysis.embedding analysis) →
  embeddingDimensions p = seq 0 n ∧
  ∀ h v s, s ∈ plotData analysis h v →
    (h ∈ embeddingDimensions p → Forall is_Some (Series.x s)) ∧
    (v ∈ embeddingDimensions p → Forall is_Some (Series.y s)) ∧
    (h ∉ embeddingDimensions p → Forall (λ c, c = None) (Series.x s)) ∧
    (v ∉ embeddingDimensions p → Forall (λ c, c = None) (Series.y s)).
Proof.
  intros Hloaded Hnonempty Hdim.
  assert (Hoffered : embeddingDimensions p = seq 0 n).
  { unfold embeddingDimensions. rewrite Hloaded.
    destruct (Analysis.embedding analysis) as [|first rest]; [done|].
    by apply Forall_cons in Hdim as [-> _]. }
  split; [exact Hoffered|]. rewrite Hoffered.
  intros h v s Hs. unfold plotData in Hs.
  apply list_elem_of_fmap in Hs as (k & -> & _). simpl.
  assert (Hpoints : Forall (λ e, length (Embedding.value e) = n)
                      (embeddingsInCluster (Analysis.embedding analysis) k)).
  { unfold embeddingsInCluster. apply Forall_forall. intros e He.
    apply list_elem_of_filter in He as [_ He].
    rewrite Forall_forall in Hdim. by apply Hdim. }
  split_and!; intros Haxis; apply Forall_fmap;
    (eapply Forall_impl; [exact Hpoints|]); intros e He; simpl in *.
  - apply elem_of_seq in Haxis. apply lookup_lt_is_Some_2. lia.
  - apply elem_of_seq in Haxis. apply lookup_lt_is_Some_2. lia.
  - apply lookup_ge_None_2. rewrite elem_of_seq in Haxis. lia.
  - apply lookup_ge_None_2. rewrite elem_of_seq in Haxis. lia.
Qed.

Lemma offered_axes_are_defined_witness :
  embeddingDimensions examplePlotPage = [0; 1; 2].
Proof.
  destruct (offered_axes_are_defined examplePlotPage exampleAnalysis 3) as [Hoffered _].
  - reflexivity.
  - discriminate.
  - repeat constructor.
  - exact Hoffered.
Defined.

(** ** The requests a change of the selection sends *)

Lemma sendsAnalyses_same (p p' : IndexPage) :
  issued p' = issued p → sendsAnalyses 0 p p'.
Proof. intros Hissued. exists []. by rewrite Hissued, app_nil_r. Qed.

Lemma sendsAnalyses_trans (n m : nat) (p q r : IndexPage) :
  sendsAnalyses n p q → sendsAnalyses m q r → sendsAnalyses (n + m) p r.
Proof.
  intros (rs1 & H1 & Hlen1 & Hkeyed1) (rs2 & H2 & Hlen2 & Hkeyed2).
  exists (rs1 ++ rs2). split_and!.
  - by rewrite H2, H1, app_assoc.
  - rewrite length_app. lia.
  - by apply Forall_app.
Qed.

Lemma sendsAnalyses_le (n m : nat) (p q : IndexPage) :
  n ≤ m → sendsAnalyses n p q → sendsAnalyses m p q.
Proof. intros Hle (rs & ? & ? & ?). exists rs. split_and!; [done|lia|done]. Qed.

Lemma truthy_string_Some (s : string) : truthy_string (Some s) = true ↔ s ≠ "".
Proof. simpl. rewrite negb_true_iff, bool_decide_eq_false. done. Qed.

Lemma refreshAnalysisAsync_0_sends (p : IndexPage) :
  sendsAnalyses 1 p (refreshAnalysisAsync_0 p).1.
Proof.
  unfold refreshAnalysisAsync_0.
  destruct (_selectedAnalysisMethod p) as [method|];
    [|apply (sendsAnalyses_le 0); [lia|by apply sendsAnalyses_same]].
  destruct (_selectedCategory p) as [category|];
    [|apply (sendsAnalyses_le 0); [lia|by apply sendsAnalyses_same]].
  destruct (_selectedClustering p) as [clustering|];
    [|apply (sendsAnalyses_le 0); [lia|by apply sendsAnalyses_same]].
  destruct (_selectedEmbedding p) as [embedding|];
    [|apply (sendsAnalyses_le 0); [lia|by apply sendsAnalyses_same]].
  destruct (truthy_string (Some clustering) && truthy_string (Some embedding))
    eqn:Hkeys; [|apply (sendsAnalyses_le 0); [lia|by apply sendsAnalyses_same]].
  apply andb_true_iff in Hkeys as [Hk He].
  apply truthy_string_Some in Hk. apply truthy_string_Some in He.
  simpl. destruct (project p) as [loaded|];
    [|apply (sendsAnalyses_le 0); [lia|by apply sendsAnalyses_same]].
  eexists. split_and!; [reflexivity|simpl; lia|].
  apply Forall_singleton. by split.
Qed.

Lemma set_selectedCategory_sends value p :
  sendsAnalyses 1 p (set_selectedCategory value p).
Proof.
  unfold set_selectedCategory. case_match.
  - apply (sendsAnalyses_trans 0 1 _ (with_selectedCategory value p));
      [by apply sendsAnalyses_same|apply refreshAnalysisAsync_0_sends].
  - apply (sendsAnalyses_le 0); [lia|by apply sendsAnalyses_same].
Qed.

Lemma set_selectedClustering_sends value p :
  sendsAnalyses 1 p (set_selectedClustering value p).
Proof.
  unfold set_selectedClustering. case_match.
  - apply (sendsAnalyses_trans 0 1 _ (with_selectedClustering value p));
      [by apply sendsAnalyses_same|apply refreshAnalysisAsync_0_sends].
  - apply (sendsAnalyses_le 0); [lia|by apply sendsAnalyses_same].
Qed.

Lemma set_selectedEmbedding_sends value p :
  sendsAnalyses 1 p (set_selectedEmbedding value p).
Proof.
  unfold set_selectedEmbedding. case_match.
  - eapply (sendsAnalyses_trans 0 1); [|apply refreshAnalysisAsync_0_sends].
    by apply sendsAnalyses_same.
  - apply (sendsAnalyses_le 0); [lia|by apply sendsAnalyses_same].
Qed.

Lemma initial_selection_sends method p :
  sendsAnalyses 3 p
    (let p := set_selectedCategory (head (AnalysisMethod.categories method)) p in
     let p := set_selectedClustering (head (AnalysisMethod.clusterings method)) p in
     if offersTsne method
     then set_selectedEmbedding (Some "tsne") p
     else set_selectedEmbedding (head (AnalysisMethod.embeddings method)) p).
Proof.
  simpl. eapply (sendsAnalyses_trans 1 2); [apply set_selectedCategory_sends|].
  eapply (sendsAnalyses_trans 1 1); [apply set_selectedClustering_sends|].
  destruct (offersTsne method); apply set_selectedEmbedding_sends.
Qed.

Lemma set_selectedAnalysisMethod_sends value p :
  sendsAnalyses 4 p (set_selectedAnalysisMethod value p).
Proof.
  unfold set_selectedAnalysisMethod. destruct value as [method|].
  - eapply (sendsAnalyses_trans 3 1); [|apply refreshAnalysisAsync_0_sends].
    eapply (sendsAnalyses_trans 0 3); [|apply initial_selection_sends].
    by apply sendsAnalyses_same.
  - apply (sendsAnalyses_le 0); [lia|by apply sendsAnalyses_same].
Qed.

(** X3.  Whatever the page holds, a setter of the selection sends nothing but
    Analysis requests, and every one of them names a clustering and an
    embedding that are not empty.  The setters of the category, the
    clustering and the embedding send at most one request, the setter of
    the analysis method at most four, and the arrival of a project at most
    eight. *)
Theorem selection_changes_send_keyed_analyses (p : IndexPage) :
  (∀ value, sendsAnalyses 1 p (set_selectedCategory value p)) ∧
  (∀ value, sendsAnalyses 1 p (set_selectedClustering value p)) ∧
  (∀ value, sendsAnalyses 1 p (set_selectedEmbedding value p)) ∧
  (∀ value, sendsAnalyses 4 p (set_selectedAnalysisMethod value p)) ∧
  (∀ sent, sendsAnalyses 8 p (refreshProjectAsync_1 sent p).1).
Proof.
  split_and!.
  - intros value. apply set_selectedCategory_sends.
  - intros value. apply set_selectedClustering_sends.
  - intros value. apply set_selectedEmbedding_sends.
  - intros value. apply set_selectedAnalysisMethod_sends.
  - intros sent. unfold refreshProjectAsync_1.
    set (q0 := with_selectedAttributions None (with_project (Some sent) p)).
    set (q1 := set_selectedAnalysisMethod (head (Project.analysisMethods sent)) q0).
    assert (H1 : sendsAnalyses 4 p q1).
    { apply (sendsAnalyses_trans 0 4 _ q0);
        [by apply sendsAnalyses_same|apply set_selectedAnalysisMethod_sends]. }
    destruct (_selectedAnalysisMethod q1) as [method|];
      [|by apply (sendsAnalyses_le 4); [lia|]].
    pose proof (initial_selection_sends method q1) as H2. simpl in H2.
    match type of H2 with sendsAnalyses _ _ ?q => set (q4 := q) in * end.
    pose proof (refreshAnalysisAsync_0_sends q4) as H3.
    assert (H : sendsAnalyses 8 p (refreshAnalysisAsync_0 q4).1).
    { apply (sendsAnalyses_trans 4 4 _ q1); [done|].
      by apply (sendsAnalyses_trans 3 1 _ q4). }
    by destruct (refreshAnalysisAsync_0 q4) as [q5 [| |]].
Qed.

Lemma refreshAnalysisAsync_0_complete (p : IndexPage) loaded method category
    (clustering embedding : string) :
  project p = Some loaded →
  _selectedAnalysisMethod p = Some method →
  _selectedCategory p = Some category →
  _selectedClustering p = Some clustering → clustering ≠ "" →
  _selectedEmbedding p = Some embedding → embedding ≠ "" →
  let request :=
    GetAnalysis (Project.id loaded) (AnalysisMethod.name method)
      (AnalysisCategory.name category) clustering embedding in
  refreshAnalysisAsync_0 p =
    (issue [request] (with_selectedAttributions None (with_isLoading true p)),
     Awaiting request).
Proof.
  intros Hproject Hmethod Hcategory Hclustering Hk Hembedding He request.
  unfold refreshAnalysisAsync_0.
  rewrite Hmethod, Hcategory, Hclustering, Hembedding.
  rewrite (proj2 (truthy_string_Some clustering) Hk).
  rewrite (proj2 (truthy_string_Some embedding) He).
  simpl. by rewrite Hproject.
Qed.

Lemma initial_embedding_setter (method : AnalysisMethod.t) (p : IndexPage) :
  (if offersTsne method
   then set_selectedEmbedding (Some "tsne") p
   else set_selectedEmbedding (head (AnalysisMethod.embeddings method)) p)
  = set_selectedEmbedding (initialEmbedding method) p.
Proof. unfold initialEmbedding. by destruct (offersTsne method). Qed.

(** X4.  When the analysis method is changed on a page that already holds a
    complete selection, the setter sends four Analysis requests for the new
    method and its first category.  The first still asks for the clustering
    and the embedding of the old selection, the second for the new
    clustering with the old embedding; only the last two ask for the
    selection the page ends with. *)
Theorem method_change_sends_stale_requests (p : IndexPage) (loaded : Project.t)
    (method : AnalysisMethod.t) (category : AnalysisCategory.t)
    (oldClustering oldEmbedding clustering embedding : string) :
  project p = Some loaded →
  _selectedClustering p = Some oldClustering → oldClustering ≠ "" →
  _selectedEmbedding p = Some oldEmbedding → oldEmbedding ≠ "" →
  head (AnalysisMethod.categories method) = Some category →
  head (AnalysisMethod.clusterings method) = Some clustering → clustering ≠ "" →
  initialEmbedding method = Some embedding → embedding ≠ "" →
  let request k e :=
    GetAnalysis (Project.id loaded) (AnalysisMethod.name method)
      (AnalysisCategory.name category) k e in
  let p' := set_selectedAnalysisMethod (Some method) p in
  issued p' =
    issued p ++ [request oldClustering oldEmbedding; request clustering oldEmbedding;
                 request clustering embedding; request clustering embedding] ∧
  _selectedClustering p' = Some clustering ∧
  _selectedEmbedding p' = Some embedding ∧
  isLoading p' = true ∧
  selectedAttributions p' = None.
Proof.
  intros Hproject Hk0 Hk0ne He0 He0ne Hcat Hclu Hkne Hemb Hene request p'.
  unfold p', set_selectedAnalysisMethod. cbv beta iota zeta.
  rewrite initial_embedding_setter, Hcat, Hclu, Hemb.
  set (p1 := with_selectedAnalysisMethod (Some method) p).
  assert (H2 : set_selectedCategory (Some category) p1 =
               issue [request oldClustering oldEmbedding]
                 (with_selectedAttributions None
                    (with_isLoading true (with_selectedCategory (Some category) p1)))).
  { unfold set_selectedCategory. simpl.
    by rewrite (refreshAnalysisAsync_0_complete _ loaded method category
                  oldClustering oldEmbedding). }
  rewrite H2. clear H2.
  match goal with |- context [set_selectedClustering _ ?q] => set (p2 := q) end.
  assert (H3 : set_selectedClustering (Some clustering) p2 =
               issue [request clustering oldEmbedding]
                 (with_selectedAttributions None
                    (with_isLoading true (with_selectedClustering (Some clustering) p2)))).
  { unfold set_selectedClustering.
    rewrite (proj2 (truthy_string_Some clustering) Hkne).
    by rewrite (refreshAnalysisAsync_0_complete _ loaded method category
                  clustering oldEmbedding). }
  rewrite H3. clear H3.
  match goal with |- context [set_selectedEmbedding _ ?q] => set (p3 := q) end.
  assert (H4 : set_selectedEmbedding (Some embedding) p3 =
               issue [request clustering embedding]
                 (with_selectedAttributions None
                    (with_isLoading true
                       (with_verticalAxisDimensionIndex 1
                          (with_horizontalAxisDimensionIndex 0
                             (with_selectedEmbedding (Some embedding) p3)))))).
  { unfold set_selectedEmbedding.
    rewrite (proj2 (truthy_string_Some embedding) Hene).
    by rewrite (refreshAnalysisAsync_0_complete _ loaded method category
                  clustering embedding). }
  rewrite H4. clear H4.
  rewrite (refreshAnalysisAsync_0_complete _ loaded method category
             clustering embedding) by done.
  simpl. rewrite <-!app_assoc. done.
Qed.

Lemma method_change_sends_stale_requests_witness :
  let p := with_selectedEmbedding (Some "umap")
             (with_selectedClustering (Some "dbscan") projectPage) in
  issued (set_selectedAnalysisMethod (Some lrp) p) =
    [GetAnalysis 1 "lrp" "cat-1" "dbscan" "umap";
     GetAnalysis 1 "lrp" "cat-1" "kmeans-5" "umap";
     GetAnalysis 1 "lrp" "cat-1" "kmeans-5" "tsne";
     GetAnalysis 1 "lrp" "cat-1" "kmeans-5" "tsne"].
Proof.
  intros p.
  refine (proj1 (method_change_sends_stale_requests p lrpProject lrp
                   {| AnalysisCategory.name := "cat-1";
                      AnalysisCategory.humanReadableName := "Category 1" |}
                   "dbscan" "umap" "kmeans-5" "tsne" _ _ _ _ _ _ _ _ _ _));
    reflexivity || discriminate.
Defined.

(** ** The stored plot and the axes *)

(** X6.  The stored plot is the plot of the loaded analysis along the current
    axes after either axis setter and after the arrival of an analysis,
    whatever the page held before; a refresh of the analysis and the
    setters of the category and the clustering keep it so.  The setter of
    the embedding does not redraw: it leaves [graphData] as it was, drawn
    along the old axes, while the axis indices already read 0 and 1. *)
Theorem stored_plot_follows_axes (p : IndexPage) :
  (∀ value, plotConsistent (set_horizontalAxisDimensionIndex value p)) ∧
  (∀ value, plotConsistent (set_verticalAxisDimensionIndex value p)) ∧
  (∀ sent, plotConsistent (refreshAnalysisAsync_1 sent p)) ∧
  (plotConsistent p →
   plotConsistent (refreshAnalysisAsync_0 p).1 ∧
   (∀ value, plotConsistent (set_selectedCategory value p)) ∧
   (∀ value, plotConsistent (set_selectedClustering value p))) ∧
  (∀ value,
     graphData (set_selectedEmbedding value p) = graphData p ∧
     _analysis (set_selectedEmbedding value p) = _analysis p ∧
     _horizontalAxisDimensionIndex (set_selectedEmbedding value p) = 0 ∧
     _verticalAxisDimensionIndex (set_selectedEmbedding value p) = 1).
Proof.
  assert (Hkeep : ∀ q q', selection q' = selection q →
                          plotConsistent q → plotConsistent q').
  { intros q q' Hsel Hq analysis. selection_fields Hsel.
    rewrite Hanalysis, Hgraph, Hhorizontal, Hvertical. apply Hq. }
  split_and!.
  - intros value analysis.
    unfold set_horizontalAxisDimensionIndex, refreshPlot. simpl.
    destruct (_analysis p) as [loaded|] eqn:Hloaded; simpl; rewrite Hloaded; [|done].
    by intros [= ->].
  - intros value analysis.
    unfold set_verticalAxisDimensionIndex, refreshPlot. simpl.
    destruct (_analysis p) as [loaded|] eqn:Hloaded; simpl; rewrite Hloaded; [|done].
    by intros [= ->].
  - intros sent analysis. unfold refreshAnalysisAsync_1, set_analysis, refreshPlot.
    simpl. by intros [= ->].
  - intros Hp. split_and!.
    + eapply Hkeep; [apply selection_refreshAnalysisAsync_0|done].
    + intros value. eapply Hkeep; [apply selection_set_selectedCategory|].
      intros analysis. apply Hp.
    + intros value. eapply Hkeep; [apply selection_set_selectedClustering|].
      intros analysis. apply Hp.
  - intros value. pose proof (selection_set_selectedEmbedding value p) as Hsel.
    selection_fields Hsel. done.
Qed.

Lemma stored_plot_follows_axes_witness :
  plotConsistent (set_selectedCategory None redrawnPage).
Proof.
  destruct (stored_plot_follows_axes (with_analysis (Some exampleAnalysis) IndexPage_new))
    as (_ & Hvertical & _).
  destruct (stored_plot_follows_axes redrawnPage) as (_ & _ & _ & Hkeep & _).
  destruct (Hkeep (Hvertical 2)) as (_ & Hcategory & _).
  apply Hcategory.
Defined.

(** ** Projects that cannot be selected from *)

(** X7.  A project without analysis methods cannot be loaded: after the project
    arrives the method throws.  The page then holds the project and no
    method, it has sent nothing but the request for the project, and
    [isLoading], set when the load began, stays true; the analysis and the
    plot of the page are as before. *)
Theorem project_without_methods_stalls (sent : Project.t) (p : IndexPage) :
  Project.analysisMethods sent = [] →
  ∃ p', refreshProjectAsync_1 sent (refreshProjectAsync_0 p).1 = (p', Thrown) ∧
        isLoading p' = true ∧
        project p' = Some sent ∧
        _selectedAnalysisMethod p' = None ∧
        issued p' = issued p ++ [GetProjectById (id p)] ∧
        _analysis p' = _analysis p ∧
        graphData p' = graphData p.
Proof.
  intros Hnone. unfold refreshProjectAsync_1. rewrite Hnone. simpl.
  by eexists.
Qed.

Lemma project_without_methods_stalls_witness :
  ∃ p', refreshProjectAsync_1 emptyProject (refreshProjectAsync_0 IndexPage_new).1
          = (p', Thrown) ∧
        isLoading p' = true.
Proof.
  destruct (project_without_methods_stalls emptyProject IndexPage_new eq_refl)
    as (p' & Hrun & Hloading & _).
  by exists p'.
Defined.

Lemma refreshAnalysisAsync_0_no_category (p : IndexPage) :
  _selectedCategory p = None → refreshAnalysisAsync_0 p = (p, Returned).
Proof.
  intros Hnone. unfold refreshAnalysisAsync_0. rewrite Hnone.
  by destruct (_selectedAnalysisMethod p).
Qed.

Lemma set_selectedClustering_no_category value (q : IndexPage) :
  _selectedCategory q = None →
  set_selectedClustering value q = with_selectedClustering value q.
Proof.
  intros Hq. unfold set_selectedClustering.
  destruct (truthy_string value); [|done].
  by rewrite refreshAnalysisAsync_0_no_category.
Qed.

Lemma set_selectedEmbedding_no_category value (q : IndexPage) :
  _selectedCategory q = None →
  set_selectedEmbedding value q =
  with_verticalAxisDimensionIndex 1
    (with_horizontalAxisDimensionIndex 0 (with_selectedEmbedding value q)).
Proof.
  intros Hq. unfold set_selectedEmbedding.
  destruct (truthy_string value); [|done].
  by rewrite refreshAnalysisAsync_0_no_category.
Qed.

Lemma initial_selection_no_category (method : AnalysisMethod.t) (q : IndexPage) :
  AnalysisMethod.categories method = [] →
  (let q := set_selectedCategory (head (AnalysisMethod.categories method)) q in
   let q := set_selectedClustering (head (AnalysisMethod.clusterings method)) q in
   if offersTsne method
   then set_selectedEmbedding (Some "tsne") q
   else set_selectedEmbedding (head (AnalysisMethod.embeddings method)) q)
  = with_verticalAxisDimensionIndex 1
      (with_horizontalAxisDimensionIndex 0
         (with_selectedEmbedding (initialEmbedding method)
            (with_selectedClustering (head (AnalysisMethod.clusterings method))
               (with_selectedCategory None q)))).
Proof.
  intros Hnone. cbv zeta. rewrite initial_embedding_setter, Hnone.
  change (set_selectedCategory (head []) q) with (with_selectedCategory None q).
  rewrite set_selectedClustering_no_category by reflexivity.
  by rewrite set_selectedEmbedding_no_category by reflexivity.
Qed.

(** X8.  When the first method of an arriving project has no category, the
    load sends no request at all: every refresh of the analysis stops at
    its guard.  The load then waits for nothing further, the page keeps the
    analysis and the plot it had, and the last segment clears
    [isLoading]. *)
Theorem method_without_category_loads_nothing (sent : Project.t)
    (method : AnalysisMethod.t) (p : IndexPage) :
  head (Project.analysisMethods sent) = Some method →
  AnalysisMethod.categories method = [] →
  ∃ p', refreshProjectAsync_1 sent p = (p', Awaiting None) ∧
        issued p' = issued p ∧
        _selectedAnalysisMethod p' = Some method ∧
        _selectedCategory p' = None ∧
        _analysis p' = _analysis p ∧
        graphData p' = graphData p ∧
        isLoading (refreshProjectAsync_2 p') = false.
Proof.
  intros Hfirst Hnone.
  unfold refreshProjectAsync_1, set_selectedAnalysisMethod. rewrite Hfirst.
  pose proof (initial_selection_no_category method) as Hquiet. cbv zeta in Hquiet.
  cbv beta iota zeta. rewrite Hquiet by done.
  rewrite refreshAnalysisAsync_0_no_category by reflexivity. simpl.
  rewrite Hquiet by done.
  rewrite refreshAnalysisAsync_0_no_category by reflexivity.
  by eexists.
Qed.

Lemma method_without_category_loads_nothing_witness :
  ∃ p', refreshProjectAsync_1 bareProject loadingPage = (p', Awaiting None) ∧
        issued p' = issued loadingPage.
Proof.
  destruct (method_without_category_loads_nothing bareProject bareMethod loadingPage
              eq_refl eq_refl) as (p' & Hrun & Hissued & _).
  by exists p'.
Defined.

(** ** Hovering *)

(** X9.  Hovering a point fetches the attribution its position resolves to and
    then the sample whose index the fetched attribution carries (not the
    index that was asked for); that sample becomes the preview, and it is
    shown.  Only the first point of the event is looked at. *)
Theorem hover_previews_sample_of_fetched_attribution (B : Backend)
    (eventInfo : EventInfo.t) (p : IndexPage) (loaded : Project.t)
    (dataPoint : DataPoint.t) (others : list DataPoint.t)
    (attribution : Attribution.json.t) (sample : Sample.json.t) :
  project p = Some loaded →
  EventInfo.points eventInfo = dataPoint :: others →
  serveAttribution B (Project.id loaded) (resolvePoint dataPoint) = Some attribution →
  serveSample B (Project.id loaded) (Attribution.json.index attribution) = Some sample →
  ∃ p', onHoverAsync B eventInfo p = (p', Fulfilled) ∧
        datasetSampleHoverPreview p' = Some (Sample.new sample environment.apiBaseUrl) ∧
        shownHoverPreview p' = Some (Sample.new sample environment.apiBaseUrl) ∧
        issued p' =
          issued p ++ [GetAttribution (Project.id loaded) (resolvePoint dataPoint);
                       GetSample (Project.id loaded) (Attribution.json.index attribution)].
Proof.
  intros Hproject Hpoints Hattribution Hsample.
  unfold onHoverAsync, onHoverAsync_0. rewrite Hpoints. simpl. rewrite Hproject.
  unfold resume at 1. unfold AttributionsService.getAsync at 1. simpl.
  rewrite Hattribution. simpl.
  unfold onHoverAsync_1. simpl. rewrite Hproject.
  unfold resume. unfold DatasetService.getAsync. simpl. rewrite Hsample. simpl.
  eexists. split_and!; [reflexivity..|]. simpl. by rewrite <-app_assoc.
Qed.

Lemma hover_previews_sample_of_fetched_attribution_witness :
  ∃ p', onHoverAsync echoBackend twinSelection projectPage = (p', Fulfilled) ∧
        Sample.index <$> shownHoverPreview p' = Some 7%Z.
Proof.
  destruct (hover_previews_sample_of_fetched_attribution echoBackend twinSelection
              projectPage lrpProject
              {| DataPoint.data := seriesOf [7; 7]%Z; DataPoint.pointIndex := 0 |}
              [{| DataPoint.data := seriesOf [7; 7]%Z; DataPoint.pointIndex := 1 |}]
              (attributionPayload 7) (samplePayload 7))
    as (p' & Hrun & _ & Hshown & _); [reflexivity..|].
  exists p'. split; [exact Hrun|]. by rewrite Hshown.
Defined.

(** X10.  A hover that does not complete, because the event has no point, no
    project is loaded or a fetch fails, leaves [isHovering] set and the
    stored preview as it was.  For an event without points nothing is
    requested. *)
Theorem rejected_hover_keeps_hovering (B : Backend) (eventInfo : EventInfo.t)
    (p p' : IndexPage) :
  onHoverAsync B eventInfo p = (p', Rejected) →
  isHovering p' = true ∧
  datasetSampleHoverPreview p' = datasetSampleHoverPreview p ∧
  (EventInfo.points eventInfo = [] → issued p' = issued p).
Proof.
  unfold onHoverAsync, onHoverAsync_0.
  destruct (EventInfo.points eventInfo) as [|dataPoint others]; simpl.
  { intros [= <-]. done. }
  destruct (project p) as [loaded|] eqn:Hproject; simpl; [|by intros [= <-]].
  destruct (AttributionsService.getAsync B _) as [attribution|]; [|by intros [= <-]].
  unfold onHoverAsync_1. simpl. rewrite Hproject. simpl.
  destruct (DatasetService.getAsync B _) as [sample|]; [done|by intros [= <-]].
Qed.

Lemma rejected_hover_keeps_hovering_witness :
  isHovering (onHoverAsync echoBackend emptySelection projectPage).1 = true.
Proof.
  apply (rejected_hover_keeps_hovering echoBackend emptySelection projectPage
           (onHoverAsync echoBackend emptySelection projectPage).1).
  reflexivity.
Defined.

(** X11.  The sample of a hover arrives whenever its fetch completes; nothing
    ties it to the point that is hovered then.  After an unhover the late
    sample is stored but not shown.  When another point is hovered in
    between, the late sample of the earlier hover is shown for it. *)
Theorem late_hover_sample_is_applied (sample : Sample.t) (eventInfo : EventInfo.t)
    (p : IndexPage) :
  datasetSampleHoverPreview (onHoverAsync_2 sample (onUnhover p)) = Some sample ∧
  shownHoverPreview (onHoverAsync_2 sample (onUnhover p)) = None ∧
  shownHoverPreview (onHoverAsync_2 sample (onHoverAsync_0 eventInfo (onUnhover p)).1)
    = Some sample.
Proof.
  split_and!; [reflexivity..|].
  unfold onHoverAsync_0.
  destruct (EventInfo.points eventInfo); [reflexivity|]. simpl.
  destruct (project p); reflexivity.
Qed.

(** ** Selections that fail or are overtaken *)

(** X12.  A run of [onSelectedAsync] that is rejected never clears
    [isLoadingSelection], so the side panel keeps showing its spinner.
    Either a fetch of the attribution batch failed: then all of its
    requests have been sent and the selection of the page is as before.  Or
    a fetch of the sample batch failed: then both batches have been sent
    and the page holds the fetched attributions, none of them with a
    sample. *)
Theorem rejected_selection_keeps_spinner (B : Backend) (eventInfo : EventInfo.t)
    (p p' : IndexPage) (loaded : Project.t) :
  project p = Some loaded →
  onSelectedAsync B (Some eventInfo) p = (p', Rejected) →
  isLoadingSelection p' = true ∧
  showsSelectionSpinner p' = true ∧
  ((Promise_all (AttributionsService.getAsync B) (attributionBatch loaded eventInfo)
      = None ∧
    selectedAttributions p' = selectedAttributions p ∧
    issued p' =
      issued p ++ (AttributionsService.request <$> attributionBatch loaded eventInfo)) ∨
   (∃ attributions,
      Promise_all (AttributionsService.getAsync B) (attributionBatch loaded eventInfo)
        = Some attributions ∧
      Promise_all (DatasetService.getAsync B) (sampleBatch loaded attributions) = None ∧
      selectedAttributions p' = Some attributions ∧
      Forall (λ attribution, Attribution.sample attribution = None) attributions ∧
      issued p' =
        issued p ++ (AttributionsService.request <$> attributionBatch loaded eventInfo)
                 ++ (DatasetService.request <$> sampleBatch loaded attributions))).
Proof.
  intros Hproject.
  unfold onSelectedAsync, onSelectedAsync_0. simpl. rewrite Hproject.
  rewrite attributionBatch_take. unfold resume at 1.
  destruct (Promise_all (AttributionsService.getAsync B) _)
    as [attributions|] eqn:Hattributions.
  - unfold onSelectedAsync_1. simpl. rewrite Hproject. unfold resume at 1.
    fold (sampleBatch loaded attributions).
    destruct (Promise_all (DatasetService.getAsync B) _) as [samples|] eqn:Hsamples;
      [discriminate|].
    intros [= <-]. split_and!; [done..|]. right. exists attributions.
    split_and!; [done..| |by simpl; rewrite <-app_assoc].
    apply mapM_Some_1 in Hattributions. clear -Hattributions.
    induction Hattributions as [|call attribution calls attributions Hcall _ IH];
      [constructor|].
    constructor; [|done]. unfold AttributionsService.getAsync in Hcall.
    by apply fmap_Some in Hcall as (payload & _ & ->).
  - intros [= <-]. split_and!; [done..|]. left. done.
Qed.

Lemma rejected_selection_keeps_spinner_witness :
  showsSelectionSpinner
    (onSelectedAsync echoBackend (Some strayPointSelection) projectPage).1 = true.
Proof.
  apply (rejected_selection_keeps_spinner echoBackend strayPointSelection projectPage
           (onSelectedAsync echoBackend (Some strayPointSelection) projectPage).1
           lrpProject eq_refl).
  apply injective_projections; [reflexivity|]. vm_compute. reflexivity.
Defined.

(** X13.  A deselect while a selection is loading is not honoured.  If it comes
    before the attributions arrive, their arrival stores them all the
    same.  If it comes while the samples are fetched, the last segment
    throws on the cleared list; it then never clears [isLoadingSelection],
    and the side panel keeps showing its spinner. *)
Theorem deselect_while_loading_is_overtaken (eventInfo : EventInfo.t)
    (attributions : list Attribution.t) (samples : list Sample.t) (p : IndexPage) :
  let p0 := (onSelectedAsync_0 (Some eventInfo) p).1 in
  let p1 := (onSelectedAsync_1 attributions p0).1 in
  selectedAttributions (onSelectedAsync_1 attributions (onDeselect p0)).1
    = Some attributions ∧
  onSelectedAsync_2 samples (onDeselect p1) = (onDeselect p1, Thrown) ∧
  isLoadingSelection (onDeselect p1) = true ∧
  showsSelectionSpinner (onDeselect p1) = true.
Proof.
  intros p0 p1.
  assert (H0 : isLoadingSelection p0 = true).
  { unfold p0, onSelectedAsync_0. simpl. destruct (project p); [done|].
    by destruct (take 20 _). }
  assert (H1 : isLoadingSelection p1 = true).
  { unfold p1, onSelectedAsync_1. simpl.
    destruct (project p0); [done|]. by destruct attributions. }
  split_and!.
  - unfold onSelectedAsync_1. simpl. destruct (project p0); [done|].
    by destruct attributions.
  - reflexivity.
  - exact H1.
  - exact H1.
Qed.

(** X14.  The side panel is in exactly one of its three states: the spinner, the
    hint to select points, or the list of the selected attributions. *)
Theorem side_panel_shows_one_state (p : IndexPage) :
  (showsSelectionSpinner p = true ∧ showsSelectionHint p = false ∧
   showsSelectionList p = false) ∨
  (showsSelectionSpinner p = false ∧ showsSelectionHint p = true ∧
   showsSelectionList p = false ∧
   (selectedAttributions p = None ∨ selectedAttributions p = Some [])) ∨
  (showsSelectionSpinner p = false ∧ showsSelectionHint p = false ∧
   showsSelectionList p = true ∧
   ∃ first others, selectedAttributions p = Some (first :: others)).
Proof.
  unfold showsSelectionSpinner, showsSelectionHint, showsSelectionList.
  destruct (isLoadingSelection p); [by left|right].
  destruct (selectedAttributions p) as [[|first others]|]; simpl.
  - left. split_and!; [done..|]. by right.
  - right. split_and!; [done..|]. by exists first, others.
  - left. split_and!; [done..|]. by left.
Qed.

(** * Properties of the before-and-after slider *)

Section slider.
Import BeforeAndAfterSliderComponent.
Context {number : Type} `{!Browser number}.

Lemma mousemoves_released (clientXs : list number) (width height : number)
    (s : t number) :
  isMouseDown s = false → mousemoves clientXs width height s = s.
Proof.
  intros Hup. induction clientXs as [|clientX clientXs IH]; [done|].
  change (mousemoves (clientX :: clientXs) width height s)
    with (mousemoves clientXs width height (mousemove clientX width height s)).
  unfold mousemove. by rewrite Hup.
Qed.

(** X19.  Pointer moves over the handle change nothing unless the button is
    down: not before the first press, and not after the button went up or
    the pointer left the document, however far the pointer then moves.
    Releasing keeps the handle and the clip where the drag left them.
    This holds whatever the numbers of the browser are and however it
    treats the texts of a style. *)
Theorem released_slider_ignores_moves (clientXs : list number) (width height : number)
    (s : t number) :
  (∀ sliderHandleWidth imageWidth,
     mousemoves clientXs width height (ngAfterViewInit sliderHandleWidth imageWidth)
     = ngAfterViewInit sliderHandleWidth imageWidth) ∧
  mousemoves clientXs width height (mouseup s) = mouseup s ∧
  mousemoves clientXs width height (mouseleave s) = mouseleave s ∧
  sliderHandle_style_left (mouseup s) = sliderHandle_style_left s ∧
  beforeImage_style_clip (mouseup s) = beforeImage_style_clip s.
Proof.
  split_and!; [intros ? ?|..]; try reflexivity; by apply mousemoves_released.
Qed.
End slider.

(** The slider run in a browser: the handle starts centred at 66.75
    pixels, the first move of a drag cuts that to 66 whole pixels, and the
    drag ends 10 pixels to the right of it. *)
Example slider_drag :
  BeforeAndAfterSliderComponent.sliderHandle_style_left centredSlider = "66.75px" ∧
  BeforeAndAfterSliderComponent.beforeImage_style_clip centredSlider
    = "rect(0px, 166.75px, 999px, 0px)" ∧
  BeforeAndAfterSliderComponent.sliderHandle_style_left draggedSlider = "76px" ∧
  BeforeAndAfterSliderComponent.beforeImage_style_clip draggedSlider
    = "rect(0px, 176px, 150px, 0px)".
Proof. vm_compute. done. Qed.

(** * Properties of the gateways' URLs *)

Section urls.
Import Stdlib.Strings.Ascii UrlText.

#[local] Ltac digit := first [by left | right; vm_compute; split; discriminate].
#[local] Ltac not_numeral H := destruct H as [[?|?] _]; [done | simpl in *; lia].

Lemma numeral_pretty_N_go (x : N) : ∀ s, numeral s → numeral (pretty_N_go x s).
Proof.
  induction (N.lt_wf_0 x) as [x _ IH]. intros s Hs.
  assert (x = 0 ∨ 0 < x)%N as [->|Hpos] by lia; [by rewrite pretty_N_go_0|].
  rewrite pretty_N_go_step by done. apply IH; [by apply N.div_lt|].
  split; [|done]. unfold pretty_N_char.
  repeat case_match; digit.
Qed.

Lemma numeral_pretty_N (n : N) : numeral (pretty n).
Proof.
  unfold pretty, pretty_N. case_decide; [split; [digit|done]|].
  by apply numeral_pretty_N_go.
Qed.

Lemma numeral_pretty_Z (z : Z) : numeral (pretty z).
Proof.
  destruct z as [|x|x]; [split; [digit|done]|apply (numeral_pretty_N (N.pos x))|].
  change (pretty (Z.neg x)) with (String "-" (pretty (N.pos x))).
  split; [by left|apply numeral_pretty_N].
Qed.

Lemma numeral_noSlash (s : string) : numeral s → noSlash s.
Proof.
  induction s as [|c s IH]; [done|]. intros [Hc Hs]. split; [|by apply IH].
  intros ->. destruct Hc as [?|?]; [done|simpl in *; lia].
Qed.

Lemma noSlash_pretty_Z (z : Z) : noSlash (pretty z).
Proof. apply numeral_noSlash, numeral_pretty_Z. Qed.

(** Below 2^53 the text of an integer number is its numeral. *)
Lemma js_integer_safe (z : Z) : safeInteger z → js_integer z = pretty z.
Proof.
  unfold safeInteger, js_integer, JsNum.toString. intros Hsafe.
  by rewrite (proj2 (Z.ltb_lt _ _) Hsafe).
Qed.

(** The texts of a value: ["undefined"], ["NaN"] or a numeral. *)
Lemma js_value_cases (n : option JsNum.t) :
  safeValue n →
  (n = None ∧ js_value n = "undefined") ∨
  (n = Some JsNum.NaN ∧ js_value n = "NaN") ∨
  (∃ z, n = Some (JsNum.Int z) ∧ js_value n = pretty z).
Proof.
  destruct n as [[|z]|]; intros Hsafe.
  - right. by left.
  - right. right. exists z. split; [done|]. by apply js_integer_safe.
  - by left.
Qed.

Lemma noSlash_js_value (n : option JsNum.t) : safeValue n → noSlash (js_value n).
Proof.
  intros [[_ ->]|[[_ ->]|(z & _ & ->)]]%js_value_cases.
  - by repeat split.
  - by repeat split.
  - apply noSlash_pretty_Z.
Qed.

Lemma js_value_inj (a b : option JsNum.t) :
  safeValue a → safeValue b → js_value a = js_value b → a = b.
Proof.
  intros [[-> ->]|[[-> ->]|(x & -> & ->)]]%js_value_cases
         [[-> ->]|[[-> ->]|(y & -> & ->)]]%js_value_cases Heq;
    try done.
  - pose proof (numeral_pretty_Z y) as Hy. rewrite <-Heq in Hy. not_numeral Hy.
  - pose proof (numeral_pretty_Z y) as Hy. rewrite <-Heq in Hy. not_numeral Hy.
  - pose proof (numeral_pretty_Z x) as Hx. rewrite Heq in Hx. not_numeral Hx.
  - pose proof (numeral_pretty_Z x) as Hx. rewrite Heq in Hx. not_numeral Hx.
  - apply (inj pretty) in Heq. by subst.
Qed.

Lemma js_number_inj (a b : option Z) :
  safeValue (JsNum.Int <$> a) → safeValue (JsNum.Int <$> b) →
  js_number a = js_number b → a = b.
Proof.
  intros Ha Hb Heq. apply js_value_inj in Heq; [|done..].
  destruct a, b; simplify_eq/=; done.
Qed.

Lemma noSlash_app_slash (u s : string) : ¬ noSlash (u +:+ String "/" s).
Proof.
  induction u as [|c u IH]; [by intros [? _]|].
  change (String c u +:+ String "/" s) with (String c (u +:+ String "/" s)).
  intros [_ ?]. by apply IH.
Qed.

Lemma split_at_slash (u u' s s' : string) :
  noSlash u → noSlash u' →
  u +:+ String "/" s = u' +:+ String "/" s' → u = u' ∧ s = s'.
Proof.
  revert u'. induction u as [|c u IH]; intros [|c' u'] Hu Hu' Heq.
  - by injection Heq as ->.
  - change (String "/" s = String c' (u' +:+ String "/" s')) in Heq.
    injection Heq as <- _. by destruct Hu' as [? _].
  - change (String c (u +:+ String "/" s) = String "/" s') in Heq.
    injection Heq as -> _. by destruct Hu as [? _].
  - change (String c (u +:+ String "/" s) = String c' (u' +:+ String "/" s')) in Heq.
    injection Heq as -> Heq. destruct Hu as [_ Hu]. destruct Hu' as [_ Hu'].
    destruct (IH u' Hu Hu' Heq) as [-> ->]. done.
Qed.

Lemma string_app_assoc (s t u : string) : (s +:+ t) +:+ u = s +:+ (t +:+ u).
Proof.
  induction s as [|c s IH]; [done|].
  change (String c ((s +:+ t) +:+ u) = String c (s +:+ (t +:+ u))). by rewrite IH.
Qed.

Lemma projects_prefix_inv (x y : string) :
  "/api/projects/" +:+ x = "/api/projects/" +:+ y → x = y.
Proof. apply string_app_inv_head. Qed.

Lemma value_is_no_path (a : option JsNum.t) (projectId : Z) (rest : string) :
  safeValue a → js_value a ≠ pretty projectId +:+ String "/" rest.
Proof.
  intros Ha Heq. apply (noSlash_app_slash (pretty projectId) rest).
  rewrite <-Heq. by apply noSlash_js_value.
Qed.

Lemma project_path_split (projectId projectId' : Z) (rest rest' : string) :
  pretty projectId +:+ String "/" rest = pretty projectId' +:+ String "/" rest' →
  projectId = projectId' ∧ rest = rest'.
Proof.
  intros Heq.
  apply split_at_slash in Heq as [Hid ->]; [|apply noSlash_pretty_Z..].
  split; [|done]. by apply (inj pretty).
Qed.

(** X16.  Apart from the Analysis requests, a URL belongs to one request
    only.  Take two requests for projects, attributions, samples or color
    maps whose project ids and indices are [undefined], [NaN] or integers
    below 2^53 in size, the integers a number holds exactly.  They have the
    same URL only when they are the same request, with the same project id
    and the same index. *)
Theorem request_url_identifies_request (r r' : Request) :
  isAnalysisRequest r = false →
  isAnalysisRequest r' = false →
  safeRequest r →
  safeRequest r' →
  request_url r = request_url r' →
  r = r'.
Proof.
  intros Hr Hr' Hs Hs' Heq. unfold request_url, js_number in Heq.
  destruct r as [|id|? ? ? ? ?|projectId index|projectId index|]; [|idtac|done|..];
    destruct r' as [|id'|? ? ? ? ?|projectId' index'|projectId' index'|];
    try done; apply string_app_inv_head in Heq; simpl in Hs, Hs';
    repeat match goal with
           | H : _ ∧ _ |- _ => destruct H
           | H : safeInteger ?z |- _ =>
               rewrite (js_integer_safe z H) in Heq; revert H
           end; intros.
  - apply projects_prefix_inv, js_value_inj in Heq; [|done..]. by subst.
  - apply projects_prefix_inv in Heq.
    change (js_value id = pretty projectId'
              +:+ String "/" ("attributions/" +:+ js_value (JsNum.Int <$> index')))
      in Heq.
    by apply value_is_no_path in Heq.
  - apply projects_prefix_inv in Heq.
    change (js_value id = pretty projectId'
              +:+ String "/" ("dataset/" +:+ pretty index')) in Heq.
    by apply value_is_no_path in Heq.
  - apply projects_prefix_inv in Heq. symmetry in Heq.
    change (js_value id' = pretty projectId
              +:+ String "/" ("attributions/" +:+ js_value (JsNum.Int <$> index)))
      in Heq.
    by apply value_is_no_path in Heq.
  - apply projects_prefix_inv in Heq.
    change (pretty projectId
              +:+ String "/" ("attributions/" +:+ js_value (JsNum.Int <$> index))
            = pretty projectId'
                +:+ String "/" ("attributions/" +:+ js_value (JsNum.Int <$> index')))
      in Heq.
    apply project_path_split in Heq as [-> Heq].
    apply string_app_inv_head in Heq.
    apply (js_number_inj index index') in Heq; [|done..]. by subst.
  - apply projects_prefix_inv in Heq.
    change (pretty projectId
              +:+ String "/" ("attributions/" +:+ js_value (JsNum.Int <$> index))
            = pretty projectId' +:+ String "/" ("dataset/" +:+ pretty index'))
      in Heq.
    apply project_path_split in Heq as [_ Heq]. done.
  - apply projects_prefix_inv in Heq. symmetry in Heq.
    change (js_value id' = pretty projectId
              +:+ String "/" ("dataset/" +:+ pretty index)) in Heq.
    by apply value_is_no_path in Heq.
  - apply projects_prefix_inv in Heq.
    change (pretty projectId +:+ String "/" ("dataset/" +:+ pretty index)
            = pretty projectId'
                +:+ String "/" ("attributions/" +:+ js_value (JsNum.Int <$> index')))
      in Heq.
    apply project_path_split in Heq as [_ Heq]. done.
  - apply projects_prefix_inv in Heq.
    change (pretty projectId +:+ String "/" ("dataset/" +:+ pretty index)
            = pretty projectId' +:+ String "/" ("dataset/" +:+ pretty index'))
      in Heq.
    apply project_path_split in Heq as [-> Heq].
    apply string_app_inv_head in Heq. apply (inj pretty) in Heq. by subst.
Qed.

Lemma request_url_identifies_request_witness :
  GetProjectById (Some (JsNum.Int 7)) = GetProjectById (Some (JsNum.Int (3 + 4))).
Proof.
  apply (request_url_identifies_request
           (GetProjectById (Some (JsNum.Int 7)))
           (GetProjectById (Some (JsNum.Int (3 + 4)))));
    reflexivity.
Defined.

(** The texts of ids that are no small integers: a route whose [id] is no
    numeral asks for the project [NaN], a point that stands for no
    attribution asks for the attribution [undefined], and an index of 22
    digits is written with an exponent. *)
Example request_url_of_unusual_ids :
  request_url <$> issued (onParamMap (Some JsNum.NaN) IndexPage_new)
    = ["http://localhost:8080/api/projects/NaN"] ∧
  request_url (GetAttribution 1 None)
    = "http://localhost:8080/api/projects/1/attributions/undefined" ∧
  request_url (GetAttribution 1 (Some (10 ^ 21)%Z))
    = "http://localhost:8080/api/projects/1/attributions/1e+21" ∧
  request_url (GetSample 1 (2 ^ 60)%Z)
    = "http://localhost:8080/api/projects/1/dataset/1152921504606847000".
Proof. vm_compute. done. Qed.

(** X17.  The Analysis gateway puts its keys into the query string as they are.
    A separator inside a name is therefore read as the end of that name:
    moving ["&clustering="] from the category into the clustering gives a
    different request with the same URL. *)
Theorem analysis_url_does_not_escape (projectId : Z)
    (analysisMethod category middle clustering embedding : string) :
  request_url (GetAnalysis projectId analysisMethod
                 (category +:+ "&clustering=" +:+ middle) clustering embedding)
  = request_url (GetAnalysis projectId analysisMethod
                   category (middle +:+ "&clustering=" +:+ clustering) embedding) ∧
  (GetAnalysis projectId analysisMethod
     (category +:+ "&clustering=" +:+ middle) clustering embedding
   ≠ GetAnalysis projectId analysisMethod
       category (middle +:+ "&clustering=" +:+ clustering) embedding).
Proof.
  split.
  - unfold request_url. by rewrite !string_app_assoc.
  - intros [= Hcategory _].
    apply (f_equal String.length) in Hcategory.
    rewrite !string_app_length in Hcategory. simpl in Hcategory. lia.
Qed.
End urls.

(** * Properties of a drag of the slider *)

(** ** Whole lengths in the browser of the scenarios *)

Section exact_browser.
Import Stdlib.Strings.Ascii UrlText ExactBrowser.

Lemma digitValue_pretty_N_char (d : N) :
  (d < 10)%N → digitValue (pretty_N_char d) = Some d.
Proof.
  intros Hd.
  assert (d = 0 ∨ d = 1 ∨ d = 2 ∨ d = 3 ∨ d = 4 ∨ d = 5 ∨ d = 6 ∨ d = 7
          ∨ d = 8 ∨ d = 9)%N as Hcases by lia.
  destruct_or!; subst d; reflexivity.
Qed.

Lemma pretty_N_go_app (x : N) (s t : string) :
  pretty_N_go x s +:+ t = pretty_N_go x (s +:+ t).
Proof.
  revert s. induction (N.lt_wf_0 x) as [x _ IH]. intros s.
  assert (x = 0 ∨ 0 < x)%N as [->|Hpos] by lia; [by rewrite !pretty_N_go_0|].
  rewrite (pretty_N_go_step x s), (pretty_N_go_step x (s +:+ t)) by done.
  rewrite IH by (by apply N.div_lt). done.
Qed.

Lemma readDigits_stop (acc : N) (rest : string) :
  startsWithDigit rest = false → readDigits acc rest = acc.
Proof.
  destruct rest as [|c rest]; [done|]. simpl.
  destruct (digitValue c); [|done]. intros Hdigit.
  apply bool_decide_eq_false in Hdigit. by destruct Hdigit.
Qed.

Lemma readDigits_pretty_N_go (x : N) :
  ∀ acc s, ∃ k, readDigits acc (pretty_N_go x s) = readDigits (acc * 10 ^ k + x) s.
Proof.
  induction (N.lt_wf_0 x) as [x _ IH]. intros acc s.
  assert (x = 0 ∨ 0 < x)%N as [->|Hpos] by lia.
  { exists 0%N. rewrite pretty_N_go_0. f_equal. rewrite N.pow_0_r. lia. }
  rewrite pretty_N_go_step by done.
  destruct (IH (x `div` 10)%N (N.div_lt x 10 Hpos eq_refl) acc
              (String (pretty_N_char (x `mod` 10)) s)) as [k Hk].
  exists (k + 1)%N. rewrite Hk. simpl.
  rewrite digitValue_pretty_N_char by (by apply N.mod_lt). f_equal.
  rewrite N.pow_add_r, N.pow_1_r, N.mul_assoc.
  pose proof (N.div_mod x 10). lia.
Qed.

Lemma startsWithDigit_pretty_N_go (x : N) :
  ∀ s, (0 < x)%N ∨ startsWithDigit s = true →
       startsWithDigit (pretty_N_go x s) = true.
Proof.
  induction (N.lt_wf_0 x) as [x _ IH]. intros s Hstart.
  assert (x = 0 ∨ 0 < x)%N as [->|Hpos] by lia.
  { rewrite pretty_N_go_0. destruct Hstart as [?|?]; [lia|done]. }
  rewrite pretty_N_go_step by done. apply IH; [by apply N.div_lt|].
  right. simpl. apply bool_decide_eq_true.
  rewrite digitValue_pretty_N_char by (by apply N.mod_lt). by eexists.
Qed.

Lemma pretty_N_parsed (n : N) (rest : string) :
  startsWithDigit rest = false →
  startsWithDigit (pretty n +:+ rest) = true ∧ readDigits 0 (pretty n +:+ rest) = n.
Proof.
  intros Hrest. unfold pretty, pretty_N. case_decide as Hzero.
  - subst n. split; [done|]. simpl. by apply readDigits_stop.
  - rewrite pretty_N_go_app. change ("" +:+ rest) with rest. split.
    + apply startsWithDigit_pretty_N_go. left. lia.
    + destruct (readDigits_pretty_N_go n 0 rest) as [k ->].
      rewrite readDigits_stop by done. lia.
Qed.

Lemma parseInt_digits (s : string) :
  startsWithDigit s = true → parseInt s = ofInt (Z.of_N (readDigits 0 s)).
Proof.
  destruct s as [|c s]; [done|].
  destruct c as [[] [] [] [] [] [] [] []]; intros Hdigit;
    try (by vm_compute in Hdigit);
    unfold parseInt; simpl skipWhiteSpace; cbv beta iota zeta;
    rewrite Hdigit; f_equal; try lia.
Qed.

Lemma parseInt_negative (s : string) :
  startsWithDigit s = true →
  parseInt (String "-"%char s) = ofInt (- Z.of_N (readDigits 0 s)).
Proof.
  intros Hdigit. unfold parseInt. simpl skipWhiteSpace. cbv beta iota zeta.
  rewrite Hdigit. f_equal; try lia.
Qed.

Lemma pretty_Z_nonneg (z : Z) : (0 ≤ z)%Z → pretty z = pretty (Z.to_N z).
Proof. destruct z; [done|done|lia]. Qed.

(** A numeral followed by a unit parses back as its number. *)
Lemma parseInt_pretty_Z (z : Z) (rest : string) :
  startsWithDigit rest = false → parseInt (pretty z +:+ rest) = ofInt z.
Proof.
  intros Hrest. destruct z as [|x|x].
  - rewrite (pretty_Z_nonneg 0) by done.
    destruct (pretty_N_parsed (Z.to_N 0) rest Hrest) as [Hstart Hread].
    by rewrite parseInt_digits, Hread.
  - rewrite (pretty_Z_nonneg (Z.pos x)) by done.
    destruct (pretty_N_parsed (Z.to_N (Z.pos x)) rest Hrest) as [Hstart Hread].
    rewrite parseInt_digits, Hread by done. f_equal.
  - change (pretty (Z.neg x)) with ("-" +:+ pretty (N.pos x)).
    destruct (pretty_N_parsed (N.pos x) rest Hrest) as [Hstart Hread].
    change (("-" +:+ pretty (N.pos x)) +:+ rest)
      with (String "-"%char (pretty (N.pos x) +:+ rest)).
    rewrite parseInt_negative, Hread by done. f_equal.
Qed.

Lemma string_app_nil_r (s : string) : s +:+ "" = s.
Proof.
  induction s as [|c s IH]; [done|].
  change (String c (s +:+ "") = String c s). by rewrite IH.
Qed.

(** The text of a whole number is its numeral. *)
Lemma toString_ofInt (z : Z) : toString (ofInt z) = pretty z.
Proof.
  unfold toString, ofInt. change (2 ^ Z.of_nat 0)%Z with 1%Z.
  rewrite Z.mod_1_r, Z.div_1_r. change (decimals 0 0) with "".
  change (if bool_decide ("" = "") then "" else "." +:+ "") with "".
  rewrite string_app_nil_r. by destruct z.
Qed.

Lemma numeral_mentions_no_NaN (s : string) :
  numeral s → mentions "NaN" (s +:+ "px") = false.
Proof.
  induction s as [|c s IH]; [done|]. intros [Hc Hs].
  change (String c s +:+ "px") with (String c (s +:+ "px")).
  change (mentions "NaN" (String c (s +:+ "px")))
    with (String.prefix "NaN" (String c (s +:+ "px")) || mentions "NaN" (s +:+ "px")).
  rewrite IH by done. rewrite orb_false_r.
  change (String.prefix "NaN" (String c (s +:+ "px")))
    with (if ascii_dec "N" c then String.prefix "aN" (s +:+ "px") else false).
  destruct (ascii_dec "N" c) as [<-|]; [|done].
  destruct Hc as [?|?]; [done|simpl in *; lia].
Qed.

Lemma ExactBrowser_wholePixels (bound : Z) : wholePixels ofInt bound.
Proof.
  split_and!.
  - intros a b _ _ _. simpl. unfold ofInt. f_equal. lia.
  - intros a b _ _ _. simpl. unfold ofInt. f_equal. lia.
  - intros a current _.
    change (parseInt (setProperty "left" (toString (ofInt a) +:+ "px") current)
            = ofInt a).
    rewrite toString_ofInt. unfold setProperty.
    rewrite numeral_mentions_no_NaN by apply numeral_pretty_Z.
    by apply parseInt_pretty_Z.
Qed.
End exact_browser.

(** ** A drag over whole pixels *)

Section drag.
Import BeforeAndAfterSliderComponent.
Context {number : Type} `{!Browser number}.
Variables (ofInt : Z → number) (bound : Z).
Hypothesis Hwhole : wholePixels ofInt bound.

Lemma mousemove_whole (l x x' : Z) (width height : number) (s : t number) :
  isMouseDown s = true →
  sliderHandlePosition s = Some (ofInt x) →
  parseInt (sliderHandle_style_left s) = ofInt l →
  (Z.abs l ≤ bound)%Z → (Z.abs x ≤ bound)%Z → (Z.abs x' ≤ bound)%Z →
  (Z.abs (x' - x) ≤ bound)%Z → (Z.abs (l + (x' - x)) ≤ bound)%Z →
  let s' := mousemove (ofInt x') width height s in
  isMouseDown s' = true ∧
  sliderHandlePosition s' = Some (ofInt x') ∧
  parseInt (sliderHandle_style_left s') = ofInt (l + (x' - x)) ∧
  beforeImage_style_clip s' =
    setProperty "clip"
      ("rect(0px, " +:+ toString (add (half width) (ofInt (l + (x' - x))))
         +:+ "px, " +:+ toString height +:+ "px, 0px)")
      (beforeImage_style_clip s).
Proof.
  intros Hdown Hposition Hleft Hl Hx Hx' Hmoved Hnew.
  destruct Hwhole as (Hadd & Hsub & Hparse).
  unfold mousemove. rewrite Hdown, Hposition, Hleft. simpl.
  rewrite (Hsub x' x) by done.
  rewrite (Hadd l (x' - x)%Z) by done.
  rewrite Hparse by done. done.
Qed.

Lemma mousemoves_whole (l0 pressed : Z) (width height : number) :
  (4 * Z.abs l0 ≤ bound)%Z → (4 * Z.abs pressed ≤ bound)%Z →
  ∀ (clientXs : list Z) (x last : Z) (s : t number),
    (4 * Z.abs x ≤ bound)%Z →
    Forall (λ x, 4 * Z.abs x ≤ bound)%Z (clientXs ++ [last]) →
    isMouseDown s = true →
    sliderHandlePosition s = Some (ofInt x) →
    parseInt (sliderHandle_style_left s) = ofInt (l0 + (x - pressed)) →
    let s' := mousemoves (ofInt <$> clientXs ++ [last]) width height s in
    isMouseDown s' = true ∧
    sliderHandlePosition s' = Some (ofInt last) ∧
    parseInt (sliderHandle_style_left s') = ofInt (l0 + (last - pressed)) ∧
    ∃ previous,
      beforeImage_style_clip s' =
        setProperty "clip"
          ("rect(0px, " +:+ toString (add (half width) (ofInt (l0 + (last - pressed))))
             +:+ "px, " +:+ toString height +:+ "px, 0px)")
          previous.
Proof.
  intros Hl0 Hpressed clientXs.
  induction clientXs as [|x1 clientXs IH]; intros x last s Hx Hall Hdown Hposition Hleft.
  - rewrite app_nil_l, Forall_singleton in Hall.
    destruct (mousemove_whole (l0 + (x - pressed)) x last width height s)
      as (Hdown' & Hposition' & Hleft' & Hclip'); [done|done|done|lia..|].
    replace (l0 + (x - pressed) + (last - x))%Z with (l0 + (last - pressed))%Z
      in Hleft', Hclip' by lia.
    split_and!; [done..|]. by eexists.
  - change ((x1 :: clientXs) ++ [last]) with (x1 :: (clientXs ++ [last])) in *.
    apply Forall_cons in Hall as [Hx1 Hall]. cbv beta in Hx1.
    destruct (mousemove_whole (l0 + (x - pressed)) x x1 width height s)
      as (Hdown' & Hposition' & Hleft' & _); [done|done|done|lia..|].
    replace (l0 + (x - pressed) + (x1 - x))%Z with (l0 + (x1 - pressed))%Z
      in Hleft' by lia.
    rewrite fmap_cons.
    change (mousemoves (ofInt x1 :: (ofInt <$> clientXs ++ [last])) width height s)
      with (mousemoves (ofInt <$> clientXs ++ [last]) width height
              (mousemove (ofInt x1) width height s)).
    by apply (IH x1).
Qed.

(** X18.  Let the browser compute with whole pixels exactly up to [bound],
    let the handle stand at [l0] whole pixels, as [parseInt] reads its
    [left], and let the pointer be at whole pixels all along, everything
    within a quarter of [bound].  Then a drag moves the handle by as many
    pixels as the pointer has moved since the button went down, whatever
    path the pointer took: after the last move [left] reads
    [l0 + (last - pressed)], and the clip of the before image was last
    assigned the rectangle that ends at half the width of the handle past
    that.  The sizes of the rectangles need not be whole.  The handle of a
    fresh slider stands where [parseInt] cuts its centred position to, and
    after a drag it stands where the drag left it. *)
Theorem drag_moves_handle_with_pointer (l0 pressed last : Z) (clientXs : list Z)
    (width height : number) (s : t number) :
  parseInt (sliderHandle_style_left s) = ofInt l0 →
  (4 * Z.abs l0 ≤ bound)%Z →
  Forall (λ x, 4 * Z.abs x ≤ bound)%Z (pressed :: clientXs ++ [last]) →
  let s' :=
    mousemoves (ofInt <$> clientXs ++ [last]) width height
      (mousedown (ofInt pressed) s) in
  parseInt (sliderHandle_style_left s') = ofInt (l0 + (last - pressed)) ∧
  isMouseDown s' = true ∧
  sliderHandlePosition s' = Some (ofInt last) ∧
  (∃ previous,
     beforeImage_style_clip s' =
       setProperty "clip"
         ("rect(0px, " +:+ toString (add (half width) (ofInt (l0 + (last - pressed))))
            +:+ "px, " +:+ toString height +:+ "px, 0px)")
         previous) ∧
  parseInt (sliderHandle_style_left (mouseup s')) = ofInt (l0 + (last - pressed)).
Proof.
  intros Hleft Hl0 Hall. apply Forall_cons in Hall as [Hpressed Hall].
  destruct (mousemoves_whole l0 pressed width height Hl0 Hpressed clientXs pressed last
              (mousedown (ofInt pressed) s))
    as (Hdown' & Hposition' & Hleft' & Hclip'); [done|done|done|done| |].
  { simpl. by rewrite Z.sub_diag, Z.add_0_r. }
  cbv zeta. split_and!; done.
Qed.
End drag.

Lemma drag_moves_handle_with_pointer_witness :
  ExactBrowser.parseInt
    (BeforeAndAfterSliderComponent.sliderHandle_style_left draggedSlider)
  = ExactBrowser.ofInt 76.
Proof.
  refine (proj1 (drag_moves_handle_with_pointer ExactBrowser.ofInt 1000
                   (ExactBrowser_wholePixels 1000) 66 100 110 [103]%Z
                   (ExactBrowser.ofInt 200) (ExactBrowser.ofInt 150) centredSlider
                   _ _ _)).
  - vm_compute. reflexivity.
  - vm_compute. discriminate.
  - repeat constructor; vm_compute; discriminate.
Defined.

(** Pointer positions between whole pixels break this: of two drags from
    100 to 101, the one that stops at 100.5 on its way leaves the handle
    half a pixel short. *)
Example drag_over_half_pixels :
  let pressed := BeforeAndAfterSliderComponent.mousedown (ExactBrowser.ofInt 100)
                   centredSlider in
  BeforeAndAfterSliderComponent.sliderHandle_style_left
    (BeforeAndAfterSliderComponent.mousemoves [ExactBrowser.ofInt 101]
       (ExactBrowser.ofInt 200) (ExactBrowser.ofInt 150) pressed) = "67px" ∧
  BeforeAndAfterSliderComponent.sliderHandle_style_left
    (BeforeAndAfterSliderComponent.mousemoves
       [ExactBrowser.Ratio 201 1; ExactBrowser.ofInt 101]
       (ExactBrowser.ofInt 200) (ExactBrowser.ofInt 150) pressed) = "66.5px".
Proof. vm_compute. done. Qed.

(** * Properties of overlapping analysis requests *)

Lemma refreshAnalysisAsync_1_frame (sent : Analysis.t) (p : IndexPage) :
  let p' := refreshAnalysisAsync_1 sent p in
  project p' = project p ∧
  _selectedAnalysisMethod p' = _selectedAnalysisMethod p ∧
  _selectedCategory p' = _selectedCategory p ∧
  _selectedClustering p' = _selectedClustering p ∧
  _selectedEmbedding p' = _selectedEmbedding p ∧
  _horizontalAxisDimensionIndex p' = _horizontalAxisDimensionIndex p ∧
  _verticalAxisDimensionIndex p' = _verticalAxisDimensionIndex p ∧
  selectedAttributions p' = selectedAttributions p ∧
  issued p' = issued p.
Proof. by repeat split. Qed.

Lemma analysesArrive_frame (responses : list Analysis.t) (p : IndexPage) :
  let p' := analysesArrive responses p in
  project p' = project p ∧
  _selectedAnalysisMethod p' = _selectedAnalysisMethod p ∧
  _selectedCategory p' = _selectedCategory p ∧
  _selectedClustering p' = _selectedClustering p ∧
  _selectedEmbedding p' = _selectedEmbedding p ∧
  _horizontalAxisDimensionIndex p' = _horizontalAxisDimensionIndex p ∧
  _verticalAxisDimensionIndex p' = _verticalAxisDimensionIndex p ∧
  selectedAttributions p' = selectedAttributions p ∧
  issued p' = issued p.
Proof.
  revert p. induction responses as [|sent responses IH]; intros p; [done|].
  cbv zeta. change (analysesArrive (sent :: responses) p)
    with (analysesArrive responses (refreshAnalysisAsync_1 sent p)).
  destruct (IH (refreshAnalysisAsync_1 sent p))
    as (-> & -> & -> & -> & -> & -> & -> & -> & ->).
  apply refreshAnalysisAsync_1_frame.
Qed.

(** X5.  Several Analysis requests can be under way at once, and a response carries
    no mark of the request it answers.  Whatever the selection is by then, the
    page shows the response that arrives last: it becomes the analysis, it is
    plotted along the current axes, and the loading flag goes down.  The
    selection itself, the side panel and the request history are as they
    were before the responses. *)
Theorem last_arriving_analysis_is_shown
    (earlier : list Analysis.t) (last : Analysis.t) (p : IndexPage) :
  let p' := analysesArrive (earlier ++ [last]) p in
  _analysis p' = Some last ∧
  graphData p' =
    Some (plotData last (_horizontalAxisDimensionIndex p) (_verticalAxisDimensionIndex p)) ∧
  isLoading p' = false ∧
  plotConsistent p' ∧
  (project p', _selectedAnalysisMethod p', _selectedCategory p',
   _selectedClustering p', _selectedEmbedding p')
  = (project p, _selectedAnalysisMethod p, _selectedCategory p,
     _selectedClustering p, _selectedEmbedding p) ∧
  selectedAttributions p' = selectedAttributions p ∧
  issued p' = issued p.
Proof.
  cbv zeta. unfold analysesArrive. rewrite foldl_snoc.
  fold (analysesArrive earlier p).
  destruct (analysesArrive_frame earlier p)
    as (Hproject & Hmethod & Hcategory & Hclustering & Hembedding
        & Hhorizontal & Hvertical & Hattributions & Hissued).
  cbv zeta in *.
  set (q := analysesArrive earlier p) in *.
  assert (Hgraph : graphData (refreshAnalysisAsync_1 last q) =
            Some (plotData last (_horizontalAxisDimensionIndex q)
                    (_verticalAxisDimensionIndex q))) by done.
  split_and!; try done.
  - by rewrite Hgraph, Hhorizontal, Hvertical.
  - intros analysis [= <-]. exact Hgraph.
  - simpl. by rewrite Hproject, Hmethod, Hcategory, Hclustering, Hembedding.
Qed.
